(** * Weather / time / forecast tools of [agent.py]

    A shallow embedding of the three tool functions [get_weather],
    [get_current_time] and [get_forecast] of [src/agent.py], together with
    the fragment of Python they run on:

    - JSON bodies as Python values ([pyval]): [None], [bool], [int] (unbounded,
      [Z]), [float] (IEEE binary64, through the Standard Library's executable
      [spec_float]), [str] (the UTF-8 bytes of the text), [list], [dict];
    - exceptions as a class name and the text [str(e)] gives;
    - the outside world ([World]): the two credentials read from the
      environment, the HTTP oracle behind [requests.get], the process clock
      and time-zone database, and the iteration order of a [set];
    - effects as an error monad over the log of the URLs requested so far.

    The [logger] calls of the source write to the log stream only and are
    left out. *)

From Stdlib Require Import ZArith QArith List String Ascii Bool Lia Permutation.
From Stdlib Require Import SpecFloat DecimalString.
Import ListNotations.

Local Open Scope string_scope.
Local Open Scope Z_scope.

(** ** Exceptions *)

(** An exception caught by [except Exception as e]: its class and [str(e)]. *)
Record exn := mk_exn { exn_class : string; exn_str : string }.

Definition result (A : Type) : Type := (exn + A)%type.

Definition raise {A : Type} (cls msg : string) : result A := inl (mk_exn cls msg).

Definition ok {A : Type} (a : A) : result A := inr a.

Definition rbind {A B : Type} (r : result A) (k : A -> result B) : result B :=
  match r with
  | inl e => inl e
  | inr a => k a
  end.

(** ** Python values *)

#[warnings="-register-all"]
Inductive pyval : Type :=
| PNone
| PBool (b : bool)
| PInt (z : Z)
| PFloat (f : spec_float)
| PStr (s : string)
| PList (l : list pyval)
| PDict (d : list (string * pyval)).

Definition type_name (v : pyval) : string :=
  match v with
  | PNone => "NoneType"
  | PBool _ => "bool"
  | PInt _ => "int"
  | PFloat _ => "float"
  | PStr _ => "str"
  | PList _ => "list"
  | PDict _ => "dict"
  end.

(** [bool(v)], as [if not v] uses it. *)
Definition truthy (v : pyval) : bool :=
  match v with
  | PNone => false
  | PBool b => b
  | PInt z => negb (z =? 0)
  | PFloat (S754_zero _) => false
  | PFloat _ => true
  | PStr EmptyString => false
  | PStr _ => true
  | PList [] => false
  | PList _ => true
  | PDict [] => false
  | PDict _ => true
  end.

Fixpoint dict_get {A : Type} (d : list (string * A)) (k : string) : option A :=
  match d with
  | [] => None
  | (k', v) :: d' => if String.eqb k' k then Some v else dict_get d' k
  end.

(** [v[key]] with a string key. *)
Definition getitem (v : pyval) (key : string) : result pyval :=
  match v with
  | PDict d =>
      match dict_get d key with
      | Some x => ok x
      | None => raise "KeyError" ("'" ++ key ++ "'")
      end
  | PList _ => raise "TypeError" "list indices must be integers or slices, not str"
  | PStr _ => raise "TypeError" "string indices must be integers, not 'str'"
  | _ => raise "TypeError" ("'" ++ type_name v ++ "' object is not subscriptable")
  end.

(** [v[0]].  The first character of a [str] is given as its first byte; the
    callers index the result with a string key, which raises whatever it is. *)
Definition getitem0 (v : pyval) : result pyval :=
  match v with
  | PList [] => raise "IndexError" "list index out of range"
  | PList (x :: _) => ok x
  | PStr EmptyString => raise "IndexError" "string index out of range"
  | PStr (String c _) => ok (PStr (String c EmptyString))
  | PDict _ => raise "KeyError" "0"
  | _ => raise "TypeError" ("'" ++ type_name v ++ "' object is not subscriptable")
  end.

(** ** Numbers *)

(** [str(n)] of an [int]. *)
Definition str_int (z : Z) : string := NilZero.string_of_int (Z.to_int z).

Definition prec : Z := 53.
Definition emax : Z := 1024.

Definition float_inf : spec_float := S754_infinity false.
Definition float_neg_inf : spec_float := S754_infinity true.

(** [float(n)]: the nearest double, ties to even; too large an [int] raises. *)
Definition float_of_int (z : Z) : result spec_float :=
  match binary_normalize prec emax z 0 false with
  | S754_infinity _ => raise "OverflowError" "int too large to convert to float"
  | f => ok f
  end.

(** [a / b] on two [int]s: the correctly rounded quotient. *)
Definition int_truediv (a b : Z) : result spec_float :=
  if b =? 0 then raise "ZeroDivisionError" "division by zero"
  else
    let neg := xorb (a <? 0) (b <? 0) in
    if a =? 0 then ok (S754_zero neg)
    else
      let '(mz, ez, lz) := SFdiv_core_binary prec emax (Z.abs a) 0 (Z.abs b) 0 in
      match binary_round_aux prec emax neg mz ez lz with
      | S754_infinity _ =>
          raise "OverflowError" "integer division result too large for a float"
      | f => ok f
      end.

(** The [int] a [bool] or an [int] stands for in arithmetic. *)
Definition as_int (v : pyval) : option Z :=
  match v with
  | PBool b => Some (if b then 1 else 0)
  | PInt z => Some z
  | _ => None
  end.

Definition is_number (v : pyval) : bool :=
  match v with
  | PBool _ | PInt _ | PFloat _ => true
  | _ => false
  end.

Fixpoint str_repeat (s : string) (n : nat) : string :=
  match n with
  | O => EmptyString
  | S n' => s ++ str_repeat s n'
  end.

Fixpoint list_repeat {A : Type} (l : list A) (n : nat) : list A :=
  match n with
  | O => []
  | S n' => (l ++ list_repeat l n')%list
  end.

Definition unsupported {A : Type} (op : string) (v : pyval) : result A :=
  raise "TypeError"
    ("unsupported operand type(s) for " ++ op ++ ": '" ++ type_name v ++ "' and 'int'").

(** [v * k] for an [int] literal [k]. *)
Definition py_mul (v : pyval) (k : Z) : result pyval :=
  match v with
  | PBool _ | PInt _ =>
      match as_int v with Some z => ok (PInt (z * k)) | None => unsupported "*" v end
  | PFloat f => rbind (float_of_int k) (fun fk => ok (PFloat (SFmul prec emax f fk)))
  | PStr s => ok (PStr (str_repeat s (Z.to_nat k)))
  | PList l => ok (PList (list_repeat l (Z.to_nat k)))
  | _ => unsupported "*" v
  end.

(** [v / k] for an [int] literal [k]. *)
Definition py_truediv (v : pyval) (k : Z) : result pyval :=
  match v with
  | PBool _ | PInt _ =>
      match as_int v with
      | Some z => rbind (int_truediv z k) (fun q => ok (PFloat q))
      | None => unsupported "/" v
      end
  | PFloat f =>
      rbind (float_of_int k) (fun fk =>
        if k =? 0 then raise "ZeroDivisionError" "float division by zero"
        else ok (PFloat (SFdiv prec emax f fk)))
  | _ => unsupported "/" v
  end.

Definition dquote : string := String (ascii_of_nat 34) EmptyString.

(** [v + k] for an [int] literal [k]. *)
Definition py_add (v : pyval) (k : Z) : result pyval :=
  match v with
  | PBool _ | PInt _ =>
      match as_int v with Some z => ok (PInt (z + k)) | None => unsupported "+" v end
  | PFloat f => rbind (float_of_int k) (fun fk => ok (PFloat (SFadd prec emax f fk)))
  | PStr _ =>
      raise "TypeError" ("can only concatenate str (not " ++ dquote ++ "int" ++ dquote ++ ") to str")
  | PList _ =>
      raise "TypeError" ("can only concatenate list (not " ++ dquote ++ "int" ++ dquote ++ ") to list")
  | _ => unsupported "+" v
  end.

(** *** Exact values and comparison *)

(** The value of a number that is not NaN, as an extended rational. *)
Inductive xreal : Type :=
| XNegInf
| XFin (q : Q)
| XPosInf.

Definition Q_of_finite (s : bool) (m : positive) (e : Z) : Q :=
  match e with
  | Zneg p => Qmake (cond_Zopp s (Zpos m)) (2 ^ p)%positive
  | _ => inject_Z (cond_Zopp s (Zpos m) * 2 ^ e)
  end.

Definition float_value (f : spec_float) : option xreal :=
  match f with
  | S754_nan => None
  | S754_infinity s => Some (if s then XNegInf else XPosInf)
  | S754_zero _ => Some (XFin 0%Q)
  | S754_finite s m e => Some (XFin (Q_of_finite s m e))
  end.

Definition num_value (v : pyval) : option xreal :=
  match v with
  | PBool b => Some (XFin (inject_Z (if b then 1 else 0)))
  | PInt z => Some (XFin (inject_Z z))
  | PFloat f => float_value f
  | _ => None
  end.

Definition xlt (x y : xreal) : bool :=
  match x, y with
  | XNegInf, XNegInf => false
  | XNegInf, _ => true
  | XFin _, XNegInf => false
  | XFin p, XFin q => match (p ?= q)%Q with Lt => true | _ => false end
  | XFin _, XPosInf => true
  | XPosInf, _ => false
  end.

Definition xeq (x y : xreal) : bool :=
  match x, y with
  | XNegInf, XNegInf => true
  | XFin p, XFin q => Qeq_bool p q
  | XPosInf, XPosInf => true
  | _, _ => false
  end.

(** Numeric [a < b]: exact between [int] and [float], false against NaN. *)
Definition num_lt (a b : pyval) : bool :=
  match num_value a, num_value b with
  | Some x, Some y => xlt x y
  | _, _ => false
  end.

Definition not_supported {A : Type} (op : string) (a b : pyval) : result A :=
  raise "TypeError"
    ("'" ++ op ++ "' not supported between instances of '" ++ type_name a
       ++ "' and '" ++ type_name b ++ "'").

(** [min(cur, new)]: [new] when [new < cur], else [cur].  [cur] is the running
    value of a day, always a number; [new] comes from the response. *)
Definition py_min (cur new : pyval) : result pyval :=
  if is_number new && is_number cur
  then ok (if num_lt new cur then new else cur)
  else not_supported "<" new cur.

(** [max(cur, new)]: [new] when [new > cur], else [cur]. *)
Definition py_max (cur new : pyval) : result pyval :=
  if is_number new && is_number cur
  then ok (if num_lt cur new then new else cur)
  else not_supported ">" new cur.

(** *** Formatting with [:.1f] *)

(** The integer nearest to [10 * m * 2^e], ties to even. *)
Definition round_tenths (m : positive) (e : Z) : Z :=
  match e with
  | Zneg p =>
      let d := Zpos (2 ^ p) in
      let a := 10 * Zpos m in
      let q := a / d in
      let r := a mod d in
      match (2 * r ?= d) with
      | Lt => q
      | Gt => q + 1
      | Eq => if Z.even q then q else q + 1
      end
  | _ => 10 * Zpos m * 2 ^ e
  end.

Definition fmt_float1 (f : spec_float) : string :=
  match f with
  | S754_nan => "nan"
  | S754_infinity s => if s then "-inf" else "inf"
  | S754_zero s => if s then "-0.0" else "0.0"
  | S754_finite s m e =>
      let t := round_tenths m e in
      (if s then "-" else "") ++ str_int (t / 10) ++ "." ++ str_int (t mod 10)
  end.

(** [format(v, '.1f')]: an [int] or [bool] is converted to [float] first. *)
Definition format_1f (v : pyval) : result string :=
  match v with
  | PFloat f => ok (fmt_float1 f)
  | PBool _ | PInt _ =>
      match as_int v with
      | Some z => rbind (float_of_int z) (fun f => ok (fmt_float1 f))
      | None => raise "TypeError" "unsupported format string"
      end
  | PStr _ => raise "ValueError" "Unknown format code 'f' for object of type 'str'"
  | _ =>
      raise "TypeError"
        ("unsupported format string passed to " ++ type_name v ++ ".__format__")
  end.

(** ** Sets of hashable values *)

(** [a == b] between two hashable values, as a [set] compares its members:
    numbers by value across [bool], [int] and [float] (NaN equals nothing),
    strings by content. *)
Definition py_eq (a b : pyval) : bool :=
  match a, b with
  | PNone, PNone => true
  | PStr s, PStr t => String.eqb s t
  | _, _ =>
      match num_value a, num_value b with
      | Some x, Some y => xeq x y
      | _, _ => false
      end
  end.

Definition hashable (v : pyval) : bool :=
  match v with
  | PList _ | PDict _ => false
  | _ => true
  end.

(** [s.add(v)]; the members are kept in the order they came in, the order a
    loop over the set sees is the world's ([set_iter] below). *)
Definition set_add (s : list pyval) (v : pyval) : result (list pyval) :=
  if hashable v
  then ok (if existsb (fun y => py_eq y v) s then s else (s ++ [v])%list)
  else raise "TypeError" ("unhashable type: '" ++ type_name v ++ "'").

(** ** Dates and times *)

Record datetime := mk_datetime {
  year : Z; month : Z; day : Z;
  hour : Z; minute : Z; second : Z;
  tzname : option string
}.

(** A time zone built by [ZoneInfo(key)]. *)
Record tzinfo := mk_tzinfo { tz_key : string }.

Definition pad2 (z : Z) : string :=
  if z <? 10 then "0" ++ str_int z else str_int z.

Definition pad4 (z : Z) : string :=
  if z <? 10 then "000" ++ str_int z
  else if z <? 100 then "00" ++ str_int z
  else if z <? 1000 then "0" ++ str_int z
  else str_int z.

(** [d.strftime('%Y-%m-%d')]. *)
Definition strftime_date (d : datetime) : string :=
  pad4 (year d) ++ "-" ++ pad2 (month d) ++ "-" ++ pad2 (day d).

(** [d.strftime('%Y-%m-%d %H:%M:%S %Z')]; [%Z] is empty without a zone name. *)
Definition strftime_full (d : datetime) : string :=
  pad4 (year d) ++ "-" ++ pad2 (month d) ++ "-" ++ pad2 (day d) ++ " "
    ++ pad2 (hour d) ++ ":" ++ pad2 (minute d) ++ ":" ++ pad2 (second d) ++ " "
    ++ match tzname d with Some n => n | None => EmptyString end.

(** ** The outside world *)

Record Response := mk_Response {
  status_code : Z;
  (** [response.json()]: the parsed body, or the decoding error *)
  json : result pyval
}.

Record World := mk_World {
  (** [os.getenv('OPENWEATHER_API_KEY')], [None] when unset *)
  OPENWEATHER_API_KEY : option string;
  (** [os.getenv('TIMEZONEDB_API_KEY')] *)
  TIMEZONEDB_API_KEY : option string;
  (** [requests.get(url)], given the URLs requested before it *)
  requests_get : list string -> string -> result Response;
  (** [str(v)] of a value that is not a [str] *)
  repr : pyval -> result string;
  (** [datetime.datetime.fromtimestamp(v)], in the local zone of the process *)
  fromtimestamp : pyval -> result datetime;
  (** [ZoneInfo(v)] *)
  ZoneInfo : pyval -> result tzinfo;
  (** [datetime.datetime.now(tz)] *)
  datetime_now : tzinfo -> datetime;
  (** the order in which a loop sees the members of a [set] *)
  set_iter : list pyval -> list pyval
}.

(** [f"{v}"]. *)
Definition py_str (W : World) (v : pyval) : result string :=
  match v with
  | PStr s => ok s
  | _ => repr W v
  end.

(** [f"{key}"] of a credential: the text [None] when it is unset. *)
Definition fmt_key (k : option string) : string :=
  match k with
  | Some s => s
  | None => "None"
  end.

(** [bool(key)]: unset and empty are both false. *)
Definition key_truthy (k : option string) : bool :=
  match k with
  | Some (String _ _) => true
  | _ => false
  end.

(** ** The monad of the tools: exceptions over the log of requested URLs *)

Definition M (A : Type) : Type := list string -> result A * list string.

Definition ret {A : Type} (a : A) : M A := fun log => (inr a, log).

Definition bind {A B : Type} (m : M A) (k : A -> M B) : M B :=
  fun log =>
    match m log with
    | (inl e, log') => (inl e, log')
    | (inr a, log') => k a log'
    end.

Definition lift {A : Type} (r : result A) : M A := fun log => (r, log).

Definition http_get (W : World) (url : string) : M Response :=
  fun log => (requests_get W log url, (log ++ [url])%list).

Notation "x <- m ;; k" := (bind m (fun x => k))
  (at level 61, m at next level, right associativity).

(** The dict a tool returns. *)
Definition pydict : Type := list (string * string).

Definition success (report : string) : pydict :=
  [("status", "success"); ("report", report)].

Definition failure (msg : string) : pydict :=
  [("status", "error"); ("error_message", msg)].

(** What a call of a tool does: the dict it returns or the exception that
    leaves it, and the URLs it requested, in order. *)
Inductive outcome : Type :=
| Returned (d : pydict)
| Raised (e : exn).

(** [try: body  except Exception as e: return handler(e)], run from an empty
    log. *)
Definition try_except (body : M pydict) (handler : exn -> pydict)
  : outcome * list string :=
  match body [] with
  | (inr d, log) => (Returned d, log)
  | (inl e, log) => (Returned (handler e), log)
  end.

(** ** [get_weather] *)

Definition weather_url (W : World) (city : string) : string :=
  "http://api.openweathermap.org/data/2.5/weather?q=" ++ city ++ "&appid="
    ++ fmt_key (OPENWEATHER_API_KEY W) ++ "&units=metric".

(** [(t * 9/5) + 32]. *)
Definition to_fahrenheit (t : pyval) : result pyval :=
  rbind (py_mul t 9) (fun t9 => rbind (py_truediv t9 5) (fun t5 => py_add t5 32)).

Definition weather_report (city desc c f : string) : string :=
  "The weather in " ++ city ++ " is " ++ desc ++ " with a temperature of "
    ++ c ++ "°C (" ++ f ++ "°F).".

Definition get_weather_body (W : World) (city : string) : M pydict :=
  response <- http_get W (weather_url W city) ;;
  if status_code response =? 200 then
    data <- lift (json response) ;;
    main <- lift (getitem data "main") ;;
    temp_c <- lift (getitem main "temp") ;;
    temp_f <- lift (to_fahrenheit temp_c) ;;
    weather <- lift (getitem data "weather") ;;
    weather0 <- lift (getitem0 weather) ;;
    weather_desc <- lift (getitem weather0 "description") ;;
    desc <- lift (py_str W weather_desc) ;;
    c <- lift (format_1f temp_c) ;;
    f <- lift (format_1f temp_f) ;;
    ret (success (weather_report city desc c f))
  else
    ret (failure ("Weather information for '" ++ city ++ "' is not available. Error: "
                    ++ str_int (status_code response))).

Definition get_weather (W : World) (city : string) : outcome * list string :=
  try_except (get_weather_body W city)
    (fun e => failure ("Error getting weather data: " ++ exn_str e)).

(** ** [get_current_time] *)

Definition geo_url (W : World) (city : string) : string :=
  "http://api.openweathermap.org/geo/1.0/direct?q=" ++ city ++ "&limit=1&appid="
    ++ fmt_key (OPENWEATHER_API_KEY W).

Definition tz_url (W : World) (lat lon : string) : string :=
  "http://api.timezonedb.com/v2.1/get-time-zone?key=" ++ fmt_key (TIMEZONEDB_API_KEY W)
    ++ "&format=json&by=position&lat=" ++ lat ++ "&lng=" ++ lon.

(** [v == 'OK']. *)
Definition is_OK (v : pyval) : bool :=
  match v with
  | PStr s => String.eqb s "OK"
  | _ => false
  end.

Definition time_report (city t : string) : string :=
  "The current time in " ++ city ++ " is " ++ t.

Definition no_timezone (city : string) : pydict :=
  failure ("Could not get timezone information for " ++ city).

Definition get_current_time_body (W : World) (city : string) : M pydict :=
  geo_response <- http_get W (geo_url W city) ;;
  if negb (status_code geo_response =? 200) then
    ret (failure ("Could not find coordinates for " ++ city))
  else
    geo_data <- lift (json geo_response) ;;
    if negb (truthy geo_data) then
      ret (failure ("City '" ++ city ++ "' not found"))
    else
      first <- lift (getitem0 geo_data) ;;
      lat <- lift (getitem first "lat") ;;
      first' <- lift (getitem0 geo_data) ;;
      lon <- lift (getitem first' "lon") ;;
      slat <- lift (py_str W lat) ;;
      slon <- lift (py_str W lon) ;;
      tz_response <- http_get W (tz_url W slat slon) ;;
      if status_code tz_response =? 200 then
        tz_data <- lift (json tz_response) ;;
        status <- lift (getitem tz_data "status") ;;
        if is_OK status then
          zone_name <- lift (getitem tz_data "zoneName") ;;
          tz <- lift (ZoneInfo W zone_name) ;;
          let now := datetime_now W tz in
          ret (success (time_report city (strftime_full now)))
        else ret (no_timezone city)
      else ret (no_timezone city).

Definition get_current_time (W : World) (city : string) : outcome * list string :=
  try_except (get_current_time_body W city)
    (fun e => failure ("Error getting time data: " ++ exn_str e)).

(** ** [get_forecast] *)

Record DayAgg := mk_DayAgg {
  temp_min : pyval;
  temp_max : pyval;
  descriptions : list pyval
}.

(** The entry a day starts with. *)
Definition new_day : DayAgg :=
  {| temp_min := PFloat float_inf;
     temp_max := PFloat float_neg_inf;
     descriptions := [] |}.

(** [d[k] = v] on an insertion-ordered dict: in place when [k] is there, at
    the end otherwise. *)
Fixpoint dict_set {A : Type} (d : list (string * A)) (k : string) (v : A)
  : list (string * A) :=
  match d with
  | [] => [(k, v)]
  | (k', v') :: d' =>
      if String.eqb k' k then (k', v) :: d' else (k', v') :: dict_set d' k v
  end.

(** [d[k]] on the dict of the days. *)
Definition dict_lookup {A : Type} (d : list (string * A)) (k : string) : result A :=
  match dict_get d k with
  | Some a => ok a
  | None => raise "KeyError" ("'" ++ k ++ "'")
  end.

Fixpoint chars (s : string) : list pyval :=
  match s with
  | EmptyString => []
  | String c s' => PStr (String c EmptyString) :: chars s'
  end.

(** What [for x in v] goes through: the members of a list, the keys of a dict,
    the characters of a string (here byte by byte). *)
Definition py_iter (v : pyval) : result (list pyval) :=
  match v with
  | PList l => ok l
  | PDict d => ok (map (fun kv => PStr (fst kv)) d)
  | PStr s => ok (chars s)
  | _ => raise "TypeError" ("'" ++ type_name v ++ "' object is not iterable")
  end.

(** The local calendar day of a sample, [fromtimestamp(forecast['dt'])] as
    [%Y-%m-%d]. *)
Definition sample_date (W : World) (forecast : pyval) : result string :=
  rbind (getitem forecast "dt") (fun dt =>
  rbind (fromtimestamp W dt) (fun d => ok (strftime_date d))).

(** One round of the grouping loop. *)
Definition forecast_step (W : World) (daily : list (string * DayAgg)) (forecast : pyval)
  : result (list (string * DayAgg)) :=
  rbind (sample_date W forecast) (fun date =>
  let daily :=
    match dict_get daily date with
    | None => dict_set daily date new_day
    | Some _ => daily
    end in
  rbind (dict_lookup daily date) (fun entry =>
  rbind (getitem forecast "main") (fun main =>
  rbind (getitem main "temp_min") (fun lo =>
  rbind (py_min (temp_min entry) lo) (fun new_min =>
  rbind (getitem forecast "main") (fun main' =>
  rbind (getitem main' "temp_max") (fun hi =>
  rbind (py_max (temp_max entry) hi) (fun new_max =>
  rbind (getitem forecast "weather") (fun weather =>
  rbind (getitem0 weather) (fun weather0 =>
  rbind (getitem weather0 "description") (fun desc =>
  rbind (set_add (descriptions entry) desc) (fun new_descs =>
  ok (dict_set daily date
        {| temp_min := new_min; temp_max := new_max; descriptions := new_descs |}))))))))))))).

Fixpoint group_by_day (W : World) (daily : list (string * DayAgg)) (l : list pyval)
  : result (list (string * DayAgg)) :=
  match l with
  | [] => ok daily
  | forecast :: l' =>
      rbind (forecast_step W daily forecast) (fun daily' => group_by_day W daily' l')
  end.

Definition nl : string := String (ascii_of_nat 10) EmptyString.

(** [", ".join(items)], [i] being the position of the first of [items]. *)
Fixpoint str_join (i : Z) (items : list pyval) : result string :=
  match items with
  | [] => ok EmptyString
  | PStr s :: rest =>
      match rest with
      | [] => ok s
      | _ => rbind (str_join (i + 1) rest) (fun t => ok (s ++ ", " ++ t))
      end
  | v :: _ =>
      raise "TypeError"
        ("sequence item " ++ str_int i ++ ": expected str instance, "
           ++ type_name v ++ " found")
  end.

Definition day_block (date lo hi lo_f hi_f conditions : string) : string :=
  "📅 " ++ date ++ ":" ++ nl
    ++ "   🌡️ Temperatura: " ++ lo ++ "°C a " ++ hi ++ "°C "
    ++ "(" ++ lo_f ++ "°F a " ++ hi_f ++ "°F)" ++ nl
    ++ "   ☁️ Condiciones: " ++ conditions ++ nl ++ nl.

(** The block of one day of the report. *)
Definition render_day (W : World) (entry : string * DayAgg) : result string :=
  let (date, forecast) := entry in
  rbind (to_fahrenheit (temp_min forecast)) (fun temp_min_f =>
  rbind (to_fahrenheit (temp_max forecast)) (fun temp_max_f =>
  rbind (str_join 0 (set_iter W (descriptions forecast))) (fun conditions =>
  rbind (format_1f (temp_min forecast)) (fun lo =>
  rbind (format_1f (temp_max forecast)) (fun hi =>
  rbind (format_1f temp_min_f) (fun lo_f =>
  rbind (format_1f temp_max_f) (fun hi_f =>
  ok (day_block date lo hi lo_f hi_f conditions)))))))).

(** The report loop: one block appended per entry. *)
Fixpoint render_days (W : World) (report : string) (entries : list (string * DayAgg))
  : result string :=
  match entries with
  | [] => ok report
  | entry :: rest =>
      rbind (render_day W entry) (fun block => render_days W (report ++ block) rest)
  end.

Definition forecast_url (W : World) (city : string) : string :=
  "http://api.openweathermap.org/data/2.5/forecast?q=" ++ city ++ "&appid="
    ++ fmt_key (OPENWEATHER_API_KEY W) ++ "&units=metric".

Definition forecast_header (city : string) : string :=
  "Pronóstico del tiempo para " ++ city ++ ":" ++ nl ++ nl.

Definition missing_key_message : string := "OpenWeather API key no está configurada".

Definition forecast_error (city : string) (code : Z) : string :=
  let error_msg :=
    "Forecast information for '" ++ city ++ "' is not available. Error: " ++ str_int code in
  if code =? 401 then "API key inválida o no configurada correctamente"
  else if code =? 404 then "No se encontró la ciudad: " ++ city
  else error_msg.

Definition get_forecast_body (W : World) (city : string) : M pydict :=
  if negb (key_truthy (OPENWEATHER_API_KEY W)) then
    ret (failure missing_key_message)
  else
    response <- http_get W (forecast_url W city) ;;
    if status_code response =? 200 then
      data <- lift (json response) ;;
      forecast_list <- lift (getitem data "list") ;;
      samples <- lift (py_iter forecast_list) ;;
      daily_forecasts <- lift (group_by_day W [] samples) ;;
      report <- lift (render_days W (forecast_header city) (firstn 5 daily_forecasts)) ;;
      ret (success report)
    else
      ret (failure (forecast_error city (status_code response))).

Definition get_forecast (W : World) (city : string) : outcome * list string :=
  try_except (get_forecast_body W city)
    (fun e => failure ("Error getting forecast data: " ++ exn_str e)).

(** ** Definitions used by the statements *)

(** An [int] literal as a double. *)
Definition float_lit (k : Z) : spec_float := binary_normalize prec emax k 0 false.

(** [c * 9/5 + 32] on doubles. *)
Definition fahrenheit (c : spec_float) : spec_float :=
  SFadd prec emax
    (SFdiv prec emax (SFmul prec emax c (float_lit 9)) (float_lit 5))
    (float_lit 32).

(** The double 15.0. *)
Definition float_15 : spec_float := S754_finite false 8444249301319680 (-49).

(** [needle in hay]. *)
Fixpoint is_infix (needle hay : string) : bool :=
  String.prefix needle hay
  || match hay with
     | EmptyString => false
     | String _ hay' => is_infix needle hay'
     end.

Definition has_key (d : pydict) (k : string) : bool :=
  match dict_get d k with
  | Some _ => true
  | None => false
  end.

(** A dict is the [Success] variant: status [success] and a report, no error
    message. *)
Definition is_success (d : pydict) : bool :=
  match dict_get d "status" with
  | Some st => String.eqb st "success" && has_key d "report" && negb (has_key d "error_message")
  | None => false
  end.

(** A dict is the [Failure] variant: status [error] and an error message, no
    report. *)
Definition is_failure (d : pydict) : bool :=
  match dict_get d "status" with
  | Some st => String.eqb st "error" && has_key d "error_message" && negb (has_key d "report")
  | None => false
  end.

(** The keys of the dict of the days that the spec describes: each day once,
    in the order of its first sample. *)
Fixpoint first_seen (days : list string) : list string :=
  match days with
  | [] => []
  | d :: rest => d :: filter (fun x => negb (String.eqb x d)) (first_seen rest)
  end.

(** A URL of the time-zone provider. *)
Definition is_tz_call (url : string) : bool :=
  String.prefix "http://api.timezonedb.com/" url.

(** [n] decimal digits. *)
Fixpoint digits (n : nat) (s : string) : bool :=
  match n, s with
  | O, EmptyString => true
  | S n', String c s' =>
      (48 <=? Z.of_nat (nat_of_ascii c)) && (Z.of_nat (nat_of_ascii c) <=? 57) && digits n' s'
  | _, _ => false
  end.

(** The ranges Python keeps the fields of a [datetime] in. *)
Definition valid_datetime (d : datetime) : Prop :=
  1 <= year d <= 9999 /\ 1 <= month d <= 12 /\ 1 <= day d <= 31 /\
  0 <= hour d <= 23 /\ 0 <= minute d <= 59 /\ 0 <= second d <= 59.

(** *** The samples of a forecast answer *)

(** [forecast['main']['temp_min']]. *)
Definition sample_temp_min (forecast : pyval) : result pyval :=
  rbind (getitem forecast "main") (fun main => getitem main "temp_min").

(** [forecast['main']['temp_max']]. *)
Definition sample_temp_max (forecast : pyval) : result pyval :=
  rbind (getitem forecast "main") (fun main => getitem main "temp_max").

(** [forecast['weather'][0]['description']]. *)
Definition sample_description (forecast : pyval) : result pyval :=
  rbind (getitem forecast "weather") (fun weather =>
  rbind (getitem0 weather) (fun weather0 => getitem weather0 "description")).

(** The four things the grouping loop reads from a sample. *)
Record Sample := mk_Sample {
  s_date : string;
  s_min : pyval;
  s_max : pyval;
  s_desc : pyval
}.

Definition read_sample (W : World) (forecast : pyval) : result Sample :=
  rbind (sample_date W forecast) (fun date =>
  rbind (sample_temp_min forecast) (fun lo =>
  rbind (sample_temp_max forecast) (fun hi =>
  rbind (sample_description forecast) (fun desc =>
  ok (mk_Sample date lo hi desc))))).

(** The samples of one calendar day, in the order of the answer. *)
Definition on_day (d : string) (ss : list Sample) : list Sample :=
  filter (fun s => String.eqb (s_date s) d) ss.

(** The entry of a day before its first sample, or as the dict has it. *)
Definition entry_of (daily : list (string * DayAgg)) (d : string) : DayAgg :=
  match dict_get daily d with
  | Some e => e
  | None => new_day
  end.

(** The entry of a day after one more sample of that day. *)
Definition merge_sample (entry : DayAgg) (s : Sample) : DayAgg :=
  {| temp_min := if num_lt (s_min s) (temp_min entry) then s_min s else temp_min entry;
     temp_max := if num_lt (temp_max entry) (s_max s) then s_max s else temp_max entry;
     descriptions :=
       if existsb (fun y => py_eq y (s_desc s)) (descriptions entry)
       then descriptions entry
       else (descriptions entry ++ [s_desc s])%list |}.


(** What an entry has to do with the samples [day] of its day: no sample is
    below its minimum or above its maximum, each bound is the starting value or
    the reading of a sample, and the conditions are the descriptions of the
    samples, each once. *)
Record entry_inv (day : list Sample) (e : DayAgg) : Prop := mk_entry_inv {
  inv_min_number : is_number (temp_min e) = true;
  inv_max_number : is_number (temp_max e) = true;
  inv_min_bound : forall s, In s day -> num_lt (s_min s) (temp_min e) = false;
  inv_max_bound : forall s, In s day -> num_lt (temp_max e) (s_max s) = false;
  inv_min_from :
    temp_min e = PFloat float_inf \/ exists s, In s day /\ temp_min e = s_min s;
  inv_max_from :
    temp_max e = PFloat float_neg_inf \/ exists s, In s day /\ temp_max e = s_max s;
  inv_desc_from : forall y, In y (descriptions e) -> exists s, In s day /\ s_desc s = y;
  inv_desc_all :
    forall s, In s day ->
      In (s_desc s) (descriptions e)
      \/ existsb (fun y => py_eq y (s_desc s)) (descriptions e) = true;
  inv_desc_once : ForallOrdPairs (fun a b => py_eq a b = false) (descriptions e)
}.

(** The dict of the days against the samples read so far. *)
Definition daily_inv (daily : list (string * DayAgg)) (ss : list Sample) : Prop :=
  map fst daily = first_seen (map s_date ss)
  /\ forall d e, dict_get daily d = Some e -> entry_inv (on_day d ss) e.





(** The list the geocoding request of [get_current_time] came back with:
    status 200 and a body that decodes to a list. *)
Definition geocoding_result (W : World) (city : string) : option (list pyval) :=
  match requests_get W [] (geo_url W city) with
  | inr r =>
      if status_code r =? 200
      then match json r with
           | inr (PList l) => Some l
           | _ => None
           end
      else None
  | inl _ => None
  end.

(** What a run of [get_current_time] looks like: it stops after the geocoding
    request with a Failure, or geocoding gave a non-empty list and the
    time-zone request followed. *)
Inductive time_run (W : World) (city : string) : outcome * list string -> Prop :=
| run_geocoding_only (msg : string) :
    time_run W city (Returned (failure msg), [geo_url W city])
| run_both (x : pyval) (rest : list pyval) (lat lon : string) (d : pydict) :
    geocoding_result W city = Some (x :: rest) ->
    time_run W city (Returned d, [geo_url W city; tz_url W lat lon]).

(** A computation returns one of the two variants whenever it returns. *)
Definition returns_variant (m : M pydict) : Prop :=
  forall log d log',
    m log = (inr d, log') -> (exists rep, d = success rep) \/ (exists msg, d = failure msg).


(** ** Test worlds *)

Definition test_fromtimestamp (v : pyval) : result datetime :=
  match v with
  | PInt z =>
      ok (mk_datetime 2025 1 (1 + z / 86400) (z mod 86400 / 3600) (z mod 3600 / 60)
            (z mod 60) None)
  | _ => raise "TypeError" "an integer is required"
  end.

Definition test_repr (v : pyval) : result string :=
  match v with
  | PInt z => ok (str_int z)
  | _ => raise "NotImplementedError" "repr"
  end.

Definition test_ZoneInfo (v : pyval) : result tzinfo :=
  match v with
  | PStr s => ok (mk_tzinfo s)
  | _ => raise "TypeError" "expected str"
  end.

(** A world whose provider answers by URL alone. *)
Definition test_world (key tzkey : option string) (net : string -> result Response)
  : World :=
  {| OPENWEATHER_API_KEY := key;
     TIMEZONEDB_API_KEY := tzkey;
     requests_get := fun _ url => net url;
     repr := test_repr;
     fromtimestamp := test_fromtimestamp;
     ZoneInfo := test_ZoneInfo;
     datetime_now := fun _ => mk_datetime 2025 6 1 12 30 5 (Some "CEST");
     set_iter := fun l => l |}.

Definition answer (code : Z) (body : pyval) : string -> result Response :=
  fun _ => ok (mk_Response code (ok body)).

Definition london_body : pyval :=
  PDict [("main", PDict [("temp", PFloat float_15)]);
         ("weather", PList [PDict [("description", PStr "clear sky")]])].

Definition london_world : World :=
  test_world (Some "k") (Some "t") (answer 200 london_body).

(** A provider that cannot be reached. *)
Definition connection_error : exn := mk_exn "ConnectionError" "connection refused".


(** A provider that rejects the key. *)
Definition unauthorized_world : World :=
  test_world (Some "k") (Some "t") (answer 401 PNone).

(** A provider that is overloaded. *)
Definition unavailable_world : World :=
  test_world (Some "k") (Some "t") (answer 503 PNone).

(** Paris: the geocoder finds it, the time-zone provider knows the zone. *)
Definition paris_net (url : string) : result Response :=
  if is_tz_call url
  then ok (mk_Response 200
             (ok (PDict [("status", PStr "OK"); ("zoneName", PStr "Europe/Paris")])))
  else ok (mk_Response 200 (ok (PList [PDict [("lat", PInt 48); ("lon", PInt 2)]]))).

Definition paris_world : World := test_world (Some "k") (Some "t") paris_net.

(** A city the geocoder does not know. *)
Definition nowhere_world : World :=
  test_world (Some "k") (Some "t") (answer 200 (PList [])).

(** A forecast sample: timestamp, the two bounds in whole degrees, the text. *)
Definition sample (dt lo hi : Z) (desc : string) : pyval :=
  PDict [("dt", PInt dt);
         ("main", PDict [("temp_min", PFloat (float_lit lo));
                         ("temp_max", PFloat (float_lit hi))]);
         ("weather", PList [PDict [("description", PStr desc)]])].

(** Seven days, the first with three samples, two of them alike in text. *)
Definition week_samples : list pyval :=
  [sample 0 10 15 "clear sky"; sample 10800 8 17 "few clouds";
   sample 21600 9 14 "clear sky";
   sample 86400 11 16 "rain"; sample 172800 12 18 "rain";
   sample 259200 7 13 "snow"; sample 345600 6 12 "snow";
   sample 432000 5 11 "mist"; sample 518400 4 10 "mist"].

Definition week_world : World :=
  test_world (Some "k") (Some "t") (answer 200 (PDict [("list", PList week_samples)])).


Definition week_read : list Sample :=
  Eval vm_compute in
    flat_map (fun f => match read_sample week_world f with
                       | inr s => [s]
                       | inl _ => []
                       end) week_samples.

Definition first_day : DayAgg :=
  {| temp_min := PFloat (float_lit 8);
     temp_max := PFloat (float_lit 17);
     descriptions := [PStr "clear sky"; PStr "few clouds"] |}.

(** No weather credential in the environment. *)
Definition keyless_world : World :=
  test_world None (Some "t") (answer 200 london_body).

(** The geocoder found the city: status 200, a list whose first entry has
    [lat] and [lon] that print as [slat] and [slon]. *)
Definition geocoded (W : World) (city slat slon : string) : Prop :=
  exists r first rest lat lon,
    requests_get W [] (geo_url W city) = inr r
    /\ status_code r = 200
    /\ json r = inr (PList (first :: rest))
    /\ getitem first "lat" = inr lat
    /\ getitem first "lon" = inr lon
    /\ py_str W lat = inr slat
    /\ py_str W lon = inr slon.

(** A time-zone provider that answers 200 but does not know the place. *)
Definition zoneless_net (url : string) : result Response :=
  if is_tz_call url
  then ok (mk_Response 200
             (ok (PDict [("status", PStr "FAILED"); ("message", PStr "Record not found.")])))
  else ok (mk_Response 200 (ok (PList [PDict [("lat", PInt 48); ("lon", PInt 2)]]))).

Definition zoneless_world : World := test_world (Some "k") (Some "t") zoneless_net.

(** ** The key check at start-up *)

(** ['Configurada ✅' if key else 'No configurada ❌']. *)
Definition key_status (k : option string) : string :=
  if key_truthy k then "Configurada ✅" else "No configurada ❌".

(** The three lines the module logs about its keys when it is loaded. *)
Definition key_report (W : World) (google : option string) : list string :=
  ["OPENWEATHER_API_KEY: " ++ key_status (OPENWEATHER_API_KEY W);
   "TIMEZONEDB_API_KEY: " ++ key_status (TIMEZONEDB_API_KEY W);
   "GOOGLE_API_KEY: " ++ key_status google].

(** ** The conversation driver: [call_agent_async], [run_conversation] *)

(** What the driver reads of an event of the agent runtime. *)
Record Part := mk_Part { text : option string }.

Record Content := mk_Content { parts : option (list Part) }.

Record EventActions := mk_EventActions { escalate : option bool }.

Record Event := mk_Event {
  (** [event.is_final_response()] *)
  is_final_response : bool;
  content : option Content;
  actions : option EventActions;
  error_message : option string
}.

(** What [runner.run_async] yields: the events, then the end of the stream or
    the exception that breaks it. *)
Record Stream := mk_Stream {
  yielded : list Event;
  raises : option exn
}.

(** The runner: the stream it answers a query with, given the queries of the
    session before it. *)
Definition Runner : Type := list string -> string -> Stream.

(** [f"{x}"] of a text that may be [None]. *)
Definition str_or_None (t : option string) : string :=
  match t with
  | Some s => s
  | None => "None"
  end.

Definition default_response : string := "Agent did not produce a final response.".

(** [event.content and event.content.parts]: the parts when there are some. *)
Definition content_parts (event : Event) : list Part :=
  match content event with
  | Some c => match parts c with Some ps => ps | None => [] end
  | None => []
  end.

(** [event.actions and event.actions.escalate]. *)
Definition escalates (event : Event) : bool :=
  match actions event with
  | Some a => match escalate a with Some b => b | None => false end
  | None => false
  end.

(** [event.error_message or 'No specific message.']. *)
Definition error_or_default (event : Event) : string :=
  match error_message event with
  | Some (String c m) => String c m
  | _ => "No specific message."
  end.

(** The body of [if event.is_final_response():], up to the [break]: the text
    after it, [current] being the text before. *)
Definition final_text (event : Event) (current : option string) : option string :=
  match content_parts event with
  | p :: _ => text p
  | [] =>
      if escalates event
      then Some ("Agent escalated: " ++ error_or_default event)
      else current
  end.

(** The [async for] loop: the text when the loop is left, or the exception
    of the stream when it breaks before a final response. *)
Fixpoint await_final (events : list Event) (ending : option exn)
         (current : option string) : result (option string) :=
  match events with
  | [] =>
      match ending with
      | Some e => inl e
      | None => inr current
      end
  | event :: rest =>
      if is_final_response event
      then inr (final_text event current)
      else await_final rest ending current
  end.

(** The console and the session: the lines printed and the queries sent to
    the runner, in order. *)
Record Console := mk_Console {
  printed : list string;
  asked : list string
}.

Definition IO (A : Type) : Type := Console -> result A * Console.

Definition io_bind {A B : Type} (m : IO A) (k : A -> IO B) : IO B :=
  fun st =>
    match m st with
    | (inl e, st') => (inl e, st')
    | (inr a, st') => k a st'
    end.

Definition print (line : string) : IO unit :=
  fun st => (inr tt, mk_Console (printed st ++ [line]) (asked st)).

(** Going through [runner.run_async(new_message=query)] to its final
    response. *)
Definition run_to_final (runner : Runner) (query : string) : IO (option string) :=
  fun st =>
    let stream := runner (asked st) query in
    (await_final (yielded stream) (raises stream) (Some default_response),
     mk_Console (printed st) (asked st ++ [query])).

Definition query_line (query : string) : string := nl ++ ">>> User Query: " ++ query.

Definition response_line (t : option string) : string :=
  "<<< Agent Response: " ++ str_or_None t.

Definition call_agent_async (runner : Runner) (query : string) : IO unit :=
  io_bind (print (query_line query)) (fun _ =>
  io_bind (run_to_final runner query) (fun final_response_text =>
  print (response_line final_response_text))).

Definition query_1 : string := "¿Cómo está el clima en Londres?".
Definition query_2 : string := "¿Y en París?".
Definition query_3 : string := "Dime el clima en Nueva York".
Definition query_4 : string := "Dime el forecast en Cochabamba".

Definition run_conversation (runner : Runner) : IO unit :=
  io_bind (call_agent_async runner query_1) (fun _ =>
  io_bind (call_agent_async runner query_2) (fun _ =>
  io_bind (call_agent_async runner query_3) (fun _ =>
  call_agent_async runner query_4))).

(** The [__main__] block: the conversation, and the line printed for an
    exception that leaves it.  The console starts empty here; what the module
    prints while it is loaded comes before. *)
Definition main (runner : Runner) : Console :=
  match run_conversation runner (mk_Console [] []) with
  | (inr _, st) => st
  | (inl e, st) => mk_Console (printed st ++ ["An error occurred: " ++ exn_str e]) (asked st)
  end.

(** The response a stream ends the call with, when it does. *)
Definition answer_of (s : Stream) : option string :=
  match await_final (yielded s) (raises s) (Some default_response) with
  | inr t => t
  | inl _ => None
  end.

(** The four queries of [run_conversation], in order. *)
Definition conversation : list string := [query_1; query_2; query_3; query_4].

(** What the runner's stream for the [i]-th query comes to, the queries
    before it having been sent. *)
Definition exchange (runner : Runner) (i : nat) : result (option string) :=
  let s := runner (firstn i conversation) (nth i conversation EmptyString) in
  await_final (yielded s) (raises s) (Some default_response).

(** *** Test runners *)

Definition thinking : Event := mk_Event false None None None.

Definition says (t : string) : Event :=
  mk_Event true (Some (mk_Content (Some [mk_Part (Some t)]))) None None.

Definition silent_final : Event := mk_Event true None None None.

(** A runner that thinks, answers, and would break if read any further. *)
Definition echo_runner : Runner :=
  fun history query =>
    mk_Stream [thinking; says ("re: " ++ query); says "never read"]
              (Some connection_error).

(** A runner that answers the first query and breaks on the second. *)
Definition flaky_runner : Runner :=
  fun history query =>
    match history with
    | [] => mk_Stream [thinking; says "Soleado"] None
    | _ => mk_Stream [thinking] (Some connection_error)
    end.

(** A runner that never comes to a final response. *)
Definition mute_runner : Runner :=
  fun history query => mk_Stream [thinking; thinking] None.

(** * Properties *)

(** ** Running a tool *)

Lemma float_of_int_lit_9 : float_of_int 9 = inr (float_lit 9).
Proof. reflexivity. Qed.

Lemma float_of_int_lit_5 : float_of_int 5 = inr (float_lit 5).
Proof. reflexivity. Qed.

Lemma float_of_int_lit_32 : float_of_int 32 = inr (float_lit 32).
Proof. reflexivity. Qed.

Lemma to_fahrenheit_float (c : spec_float) :
  to_fahrenheit (PFloat c) = inr (PFloat (fahrenheit c)).
Proof.
  unfold to_fahrenheit, py_mul, py_truediv, py_add, fahrenheit.
  rewrite float_of_int_lit_9. cbn [rbind ok].
  rewrite float_of_int_lit_5. cbn [rbind ok Z.eqb].
  rewrite float_of_int_lit_32. reflexivity.
Qed.

(** C1: on a 200 answer whose body has the Celsius reading [c] at
    [main.temp] and the text [d] at [weather[0].description], [get_weather]
    returns the Success dict with the report
    ["The weather in {city} is {d} with a temperature of {c:.1f}°C ({f:.1f}°F)."],
    [f] being [c * 9/5 + 32], after exactly one request; for London, 15.0 and
    clear sky the report reads 15.0°C (59.0°F). *)
Theorem get_weather_success_report :
  forall (W : World) (city d : string) (c : spec_float) (r : Response)
         (data main weather weather0 : pyval),
    requests_get W [] (weather_url W city) = inr r ->
    status_code r = 200 ->
    json r = inr data ->
    getitem data "main" = inr main ->
    getitem main "temp" = inr (PFloat c) ->
    getitem data "weather" = inr weather ->
    getitem0 weather = inr weather0 ->
    getitem weather0 "description" = inr (PStr d) ->
    get_weather W city
    = (Returned
         (success
            ("The weather in " ++ city ++ " is " ++ d ++ " with a temperature of "
               ++ fmt_float1 c ++ "°C (" ++ fmt_float1 (fahrenheit c) ++ "°F).")),
       [weather_url W city])
    /\ "The weather in " ++ "London" ++ " is " ++ "clear sky" ++ " with a temperature of "
         ++ fmt_float1 float_15 ++ "°C (" ++ fmt_float1 (fahrenheit float_15) ++ "°F)."
       = "The weather in London is clear sky with a temperature of 15.0°C (59.0°F).".
Proof.
  intros W city d c r data main weather weather0 Hget Hcode Hjson Hmain Htemp Hw Hw0 Hd.
  split; [| vm_compute; reflexivity].
  unfold get_weather, try_except, get_weather_body, bind, http_get, lift, ret.
  cbn [app]. rewrite Hget, Hcode. cbn [Z.eqb Pos.eqb].
  rewrite Hjson, Hmain, Htemp, to_fahrenheit_float, Hw, Hw0, Hd.
  reflexivity.
Qed.

Lemma get_weather_success_report_witness :
  requests_get london_world [] (weather_url london_world "London")
  = inr (mk_Response 200 (inr london_body))
  /\ get_weather london_world "London"
     = (Returned
          (success "The weather in London is clear sky with a temperature of 15.0°C (59.0°F)."),
        ["http://api.openweathermap.org/data/2.5/weather?q=London&appid=k&units=metric"]).
Proof.
  split; [reflexivity |].
  exact (proj1 (get_weather_success_report london_world "London" "clear sky" float_15
                  (mk_Response 200 (inr london_body)) london_body
                  (PDict [("temp", PFloat float_15)])
                  (PList [PDict [("description", PStr "clear sky")]])
                  (PDict [("description", PStr "clear sky")])
                  eq_refl eq_refl eq_refl eq_refl eq_refl eq_refl eq_refl eq_refl)).
Defined.

(** ** What the body of a tool can return *)

Lemma variant_success (rep : string) : returns_variant (ret (success rep)).
Proof. intros log d log' H. inversion H. left. now exists rep. Qed.

Lemma variant_failure (msg : string) : returns_variant (ret (failure msg)).
Proof. intros log d log' H. inversion H. right. now exists msg. Qed.

Lemma variant_bind {A : Type} (m : M A) (k : A -> M pydict) :
  (forall a, returns_variant (k a)) -> returns_variant (bind m k).
Proof.
  intros Hk log d log' H. unfold bind in H.
  destruct (m log) as [[e | a] log1]; [discriminate |].
  exact (Hk a log1 d log' H).
Qed.

Ltac variant_steps :=
  repeat first
    [ apply variant_success
    | apply variant_failure
    | apply variant_bind; intros ?
    | match goal with
      | |- returns_variant (if ?c then _ else _) => destruct c
      end ].

Lemma get_weather_body_variant (W : World) (city : string) :
  returns_variant (get_weather_body W city).
Proof. unfold get_weather_body. variant_steps. Qed.

Lemma get_current_time_body_variant (W : World) (city : string) :
  returns_variant (get_current_time_body W city).
Proof. unfold get_current_time_body, no_timezone. variant_steps. Qed.

Lemma get_forecast_body_variant (W : World) (city : string) :
  returns_variant (get_forecast_body W city).
Proof. unfold get_forecast_body. variant_steps. Qed.

Lemma success_exactly_one (rep : string) :
  is_success (success rep) = true /\ is_failure (success rep) = false.
Proof. split; reflexivity. Qed.

Lemma failure_exactly_one (msg : string) :
  is_success (failure msg) = false /\ is_failure (failure msg) = true.
Proof. split; reflexivity. Qed.

Lemma try_except_variant (body : M pydict) (prefix : string) :
  returns_variant body ->
  exists d log,
    try_except body (fun e => failure (prefix ++ exn_str e)) = (Returned d, log)
    /\ ((exists rep, d = success rep) \/ (exists msg, d = failure msg))
    /\ xorb (is_success d) (is_failure d) = true.
Proof.
  intros Hb. unfold try_except.
  destruct (body []) as [[e | d] log] eqn:E.
  - eexists; eexists; split; [reflexivity |]. split; [right; eauto | reflexivity].
  - exists d, log. split; [reflexivity |].
    destruct (Hb _ _ _ E) as [[rep ->] | [msg ->]]; (split; [eauto | reflexivity]).
Qed.


(** C2: whatever the city and the world, each of the three tools returns a
    dict (no exception leaves it) that is exactly one of the two variants:
    status [success] with a report and no error message, or status [error]
    with an error message and no report. *)
Theorem tools_return_exactly_one_variant :
  forall (W : World) (city : string) (tool : World -> string -> outcome * list string),
    In tool [get_weather; get_current_time; get_forecast] ->
    exists d log,
      tool W city = (Returned d, log)
      /\ ((exists rep, d = success rep) \/ (exists msg, d = failure msg))
      /\ xorb (is_success d) (is_failure d) = true.
Proof.
  intros W city tool [<- | [<- | [<- | []]]].
  - apply try_except_variant, get_weather_body_variant.
  - apply try_except_variant, get_current_time_body_variant.
  - apply try_except_variant, get_forecast_body_variant.
Qed.

Lemma tools_return_exactly_one_variant_witness :
  In get_weather [get_weather; get_current_time; get_forecast]
  /\ exists d log,
       get_weather london_world "London" = (Returned d, log)
       /\ ((exists rep, d = success rep) \/ (exists msg, d = failure msg))
       /\ xorb (is_success d) (is_failure d) = true.
Proof.
  split; [left; reflexivity |].
  apply (tools_return_exactly_one_variant london_world "London" get_weather).
  left; reflexivity.
Defined.

(** ** Exceptions and the number of requests *)

Lemma try_except_raised (body : M pydict) (handler : exn -> pydict) (e : exn)
      (log : list string) :
  body [] = (inl e, log) -> try_except body handler = (Returned (handler e), log).
Proof. intros H. unfold try_except. now rewrite H. Qed.

Lemma try_except_returned (body : M pydict) (handler : exn -> pydict) (d : pydict)
      (log : list string) :
  body [] = (inr d, log) -> try_except body handler = (Returned d, log).
Proof. intros H. unfold try_except. now rewrite H. Qed.

Lemma try_except_log (body : M pydict) (handler : exn -> pydict) :
  snd (try_except body handler) = snd (body []).
Proof. unfold try_except. now destruct (body []) as [[e | d] log]. Qed.












Lemma get_weather_raised (W : World) (city : string) (e : exn) (log : list string) :
  get_weather_body W city [] = (inl e, log) ->
  get_weather W city
  = (Returned (failure ("Error getting weather data: " ++ exn_str e)), log).
Proof. intros H. unfold get_weather. now rewrite (try_except_raised _ _ _ _ H). Qed.


Lemma get_forecast_raised (W : World) (city : string) (e : exn) (log : list string) :
  get_forecast_body W city [] = (inl e, log) ->
  get_forecast W city
  = (Returned (failure ("Error getting forecast data: " ++ exn_str e)), log).
Proof. intros H. unfold get_forecast. now rewrite (try_except_raised _ _ _ _ H). Qed.



(** ** Credentials *)

Ltac split_matches :=
  repeat match goal with
         | H : context [match ?x with _ => _ end] |- _ => destruct x eqn:?
         | H : context [if ?x then _ else _] |- _ => destruct x eqn:?
         end.

Lemma get_forecast_no_key (W : World) (city : string) :
  key_truthy (OPENWEATHER_API_KEY W) = false ->
  get_forecast W city = (Returned (failure missing_key_message), []).
Proof.
  intros H. unfold get_forecast, try_except, get_forecast_body. now rewrite H.
Qed.

Lemma forecast_error_not_missing_key (city : string) (code : Z) :
  forecast_error city code <> missing_key_message.
Proof.
  unfold forecast_error, missing_key_message.
  destruct (code =? 401); [discriminate |].
  destruct (code =? 404); discriminate.
Qed.

Lemma get_forecast_with_key_message (W : World) (city : string) :
  key_truthy (OPENWEATHER_API_KEY W) = true ->
  fst (get_forecast W city) <> Returned (failure missing_key_message).
Proof.
  intros Hk Heq.
  unfold get_forecast, try_except, get_forecast_body, bind, http_get, lift, ret in Heq.
  rewrite Hk in Heq. cbn [negb] in Heq.
  split_matches; cbn [fst] in Heq;
    repeat match goal with
           | H : (_, _) = (_, _) |- _ => inversion H; clear H; subst
           end;
    try discriminate.
  inversion Heq as [Hm]. now apply forecast_error_not_missing_key in Hm.
Qed.

(** C5: when the weather credential is absent (unset or empty),
    [get_forecast] returns the Failure dict with the missing-credential
    message and has requested nothing; with a credential present, no path of
    [get_forecast] produces that message. *)
Theorem get_forecast_missing_credential :
  forall (W : World) (city : string),
    key_truthy (OPENWEATHER_API_KEY W) = false ->
    get_forecast W city = (Returned (failure missing_key_message), [])
    /\ forall (W' : World) (city' : string),
         key_truthy (OPENWEATHER_API_KEY W') = true ->
         fst (get_forecast W' city') <> Returned (failure missing_key_message).
Proof.
  intros W city H. split.
  - now apply get_forecast_no_key.
  - intros W' city'. apply get_forecast_with_key_message.
Qed.

Lemma get_forecast_missing_credential_witness :
  key_truthy (OPENWEATHER_API_KEY keyless_world) = false
  /\ get_forecast keyless_world "London"
     = (Returned (failure "OpenWeather API key no está configurada"), []).
Proof.
  split; [reflexivity |].
  exact (proj1 (get_forecast_missing_credential keyless_world "London" eq_refl)).
Defined.

Lemma get_weather_log (W : World) (city : string) :
  snd (get_weather W city) = [weather_url W city].
Proof.
  unfold get_weather. rewrite try_except_log.
  unfold get_weather_body, bind, http_get, lift, ret. cbn [app].
  destruct (requests_get W [] (weather_url W city)) as [e | r]; [reflexivity |].
  destruct (status_code r =? 200); [| reflexivity].
  repeat match goal with
         | |- context [match ?x with _ => _ end] => destruct x; try reflexivity
         end.
Qed.

Lemma get_weather_failure_inv (W : World) (city m : string) :
  fst (get_weather W city) = Returned (failure m) ->
  (exists r, requests_get W [] (weather_url W city) = inr r
             /\ status_code r <> 200
             /\ m = "Weather information for '" ++ city ++ "' is not available. Error: "
                      ++ str_int (status_code r))
  \/ (exists e log, get_weather_body W city [] = (inl e, log)
                    /\ m = "Error getting weather data: " ++ exn_str e).
Proof.
  unfold get_weather, try_except.
  destruct (get_weather_body W city []) as [[e | d] log] eqn:E; cbn [fst]; intros H.
  - right. exists e, log. split; [reflexivity |]. now inversion H.
  - left. inversion H; subst d; clear H.
    unfold get_weather_body, bind, http_get, lift, ret in E. cbn [app] in E.
    destruct (requests_get W [] (weather_url W city)) as [e | r]; [discriminate |].
    exists r. split; [reflexivity |].
    destruct (status_code r =? 200) eqn:Hc.
    + split_matches; discriminate.
    + apply Z.eqb_neq in Hc. split; [exact Hc |]. now inversion E.
Qed.

(** C10: [get_weather] has no credential check.  With the weather credential
    absent it still makes its one request, the key interpolated as it is (the
    text [None] when unset); it never returns the missing-credential Failure of
    [get_forecast], which in the same world returns it without a request; and a
    Failure of [get_weather] is either the answer of the provider with a status
    other than 200 or a caught exception. *)
Theorem get_weather_no_credential_check :
  forall (W : World) (city : string),
    key_truthy (OPENWEATHER_API_KEY W) = false ->
    snd (get_weather W city) = [weather_url W city]
    /\ (OPENWEATHER_API_KEY W = None ->
        weather_url W city
        = "http://api.openweathermap.org/data/2.5/weather?q=" ++ city
            ++ "&appid=None&units=metric")
    /\ fst (get_weather W city) <> Returned (failure missing_key_message)
    /\ get_forecast W city = (Returned (failure missing_key_message), [])
    /\ forall m,
         fst (get_weather W city) = Returned (failure m) ->
         (exists r, requests_get W [] (weather_url W city) = inr r
                    /\ status_code r <> 200
                    /\ m = "Weather information for '" ++ city
                             ++ "' is not available. Error: " ++ str_int (status_code r))
         \/ (exists e log, get_weather_body W city [] = (inl e, log)
                           /\ m = "Error getting weather data: " ++ exn_str e).
Proof.
  intros W city Hk. repeat split.
  - apply get_weather_log.
  - intros Hnone. unfold weather_url. now rewrite Hnone.
  - intros H. apply get_weather_failure_inv in H.
    destruct H as [(r & _ & _ & Hm) | (e & log & _ & Hm)]; discriminate.
  - now apply get_forecast_no_key.
  - apply get_weather_failure_inv.
Qed.

Lemma get_weather_no_credential_check_witness :
  key_truthy (OPENWEATHER_API_KEY keyless_world) = false
  /\ snd (get_weather keyless_world "London")
     = ["http://api.openweathermap.org/data/2.5/weather?q=London&appid=None&units=metric"]
  /\ fst (get_weather keyless_world "London")
     = Returned
         (success "The weather in London is clear sky with a temperature of 15.0°C (59.0°F).").
Proof.
  split; [reflexivity |]. split; [| reflexivity].
  exact (proj1 (get_weather_no_credential_check keyless_world "London" eq_refl)).
Defined.

(** ** Status codes in the messages *)

Lemma prefix_app (p s : string) : String.prefix p (p ++ s) = true.
Proof.
  induction p as [| c p IH]; cbn.
  - now destruct s.
  - destruct (ascii_dec c c) as [_ | N]; [exact IH | now elim N].
Qed.

Lemma is_infix_here (p s : string) : String.prefix p s = true -> is_infix p s = true.
Proof. intros H. destruct s; cbn [is_infix]; rewrite H; reflexivity. Qed.

Lemma is_infix_skip (pre needle s : string) :
  is_infix needle s = true -> is_infix needle (pre ++ s) = true.
Proof.
  intros H. induction pre as [| c pre IH]; [exact H |].
  cbn [append is_infix]. rewrite IH. apply orb_true_r.
Qed.

Lemma is_infix_app (pre needle post : string) :
  is_infix needle (pre ++ needle ++ post) = true.
Proof. apply is_infix_skip, is_infix_here, prefix_app. Qed.

Lemma prefix_refl (p : string) : String.prefix p p = true.
Proof.
  induction p as [| c p IH]; cbn; [reflexivity |].
  destruct (ascii_dec c c) as [_ | N]; [exact IH | now elim N].
Qed.

Lemma is_infix_suffix (pre needle : string) : is_infix needle (pre ++ needle) = true.
Proof. apply is_infix_skip, is_infix_here, prefix_refl. Qed.

Lemma get_weather_status (W : World) (city : string) (r : Response) :
  requests_get W [] (weather_url W city) = inr r ->
  status_code r <> 200 ->
  get_weather W city
  = (Returned
       (failure ("Weather information for '" ++ city ++ "' is not available. Error: "
                   ++ str_int (status_code r))),
     [weather_url W city]).
Proof.
  intros H Hc. apply Z.eqb_neq in Hc.
  unfold get_weather, try_except, get_weather_body, bind, http_get, ret. cbn [app].
  now rewrite H, Hc.
Qed.

Lemma get_forecast_status (W : World) (city : string) (r : Response) :
  key_truthy (OPENWEATHER_API_KEY W) = true ->
  requests_get W [] (forecast_url W city) = inr r ->
  status_code r <> 200 ->
  get_forecast W city
  = (Returned (failure (forecast_error city (status_code r))), [forecast_url W city]).
Proof.
  intros Hk H Hc. apply Z.eqb_neq in Hc.
  unfold get_forecast, try_except, get_forecast_body, bind, http_get, ret.
  rewrite Hk. cbn [negb app]. now rewrite H, Hc.
Qed.

(** C3, as the code has it: for every status other than 200 [get_weather]
    returns the Failure dict whose message ends with the status code, whatever
    the credential and whatever [get_forecast] does; so does [get_forecast]
    (with a credential present) for every status other than 200, 401 and 404,
    while for 401 and for 404 it returns the fixed messages of those two cases,
    which do not carry the code. *)
Theorem status_code_in_failure_message :
  forall (W : World) (city : string) (r : Response),
    (requests_get W [] (weather_url W city) = inr r ->
     status_code r <> 200 ->
     exists m, get_weather W city = (Returned (failure m), [weather_url W city])
               /\ m = "Weather information for '" ++ city
                        ++ "' is not available. Error: " ++ str_int (status_code r)
               /\ is_infix (str_int (status_code r)) m = true)
    /\ (key_truthy (OPENWEATHER_API_KEY W) = true ->
        requests_get W [] (forecast_url W city) = inr r ->
        status_code r <> 200 ->
        exists m, get_forecast W city = (Returned (failure m), [forecast_url W city])
                  /\ (status_code r = 401 ->
                      m = "API key inválida o no configurada correctamente")
                  /\ (status_code r = 404 -> m = "No se encontró la ciudad: " ++ city)
                  /\ (status_code r <> 401 -> status_code r <> 404 ->
                      m = "Forecast information for '" ++ city
                            ++ "' is not available. Error: " ++ str_int (status_code r)
                      /\ is_infix (str_int (status_code r)) m = true)).
Proof.
  intros W city r. split.
  - intros Hw Hcw.
    eexists. split; [exact (get_weather_status W city r Hw Hcw) |].
    split; [reflexivity |].
    do 2 apply is_infix_skip. apply is_infix_suffix.
  - intros Hk Hf Hcf.
    eexists. split; [exact (get_forecast_status W city r Hk Hf Hcf) |].
    unfold forecast_error. repeat split.
    + intros ->. reflexivity.
    + intros ->. reflexivity.
    + apply Z.eqb_neq in H, H0. now rewrite H, H0.
    + apply Z.eqb_neq in H, H0. rewrite H, H0.
      do 2 apply is_infix_skip. apply is_infix_suffix.
Qed.

Lemma status_code_in_failure_message_witness :
  status_code (mk_Response 503 (inr PNone)) <> 200
  /\ (exists m,
        get_weather (test_world None None (answer 503 PNone)) "Paris"
        = (Returned (failure m),
           ["http://api.openweathermap.org/data/2.5/weather?q=Paris&appid=None&units=metric"])
        /\ is_infix (str_int 503) m = true)
  /\ (exists m,
        get_forecast unavailable_world "Paris"
        = (Returned (failure m), [forecast_url unavailable_world "Paris"])
        /\ is_infix (str_int 503) m = true).
Proof.
  assert (Hne : status_code (mk_Response 503 (inr PNone)) <> 200) by discriminate.
  split; [exact Hne |]. split.
  - destruct (proj1 (status_code_in_failure_message
                       (test_world None None (answer 503 PNone)) "Paris"
                       (mk_Response 503 (inr PNone))) eq_refl Hne)
      as (m & Hm & _ & Hi).
    exists m. split; [exact Hm | exact Hi].
  - destruct (proj2 (status_code_in_failure_message unavailable_world "Paris"
                       (mk_Response 503 (inr PNone))) eq_refl eq_refl Hne)
      as (m & Hm & _ & _ & Hi).
    exists m. split; [exact Hm |]. apply Hi; discriminate.
Defined.

(** C3 as stated fails: on status 401 the message of [get_forecast] is the
    fixed text for a rejected key, in which 401 does not occur. *)
Lemma get_forecast_401_message_without_code :
  requests_get unauthorized_world [] (forecast_url unauthorized_world "Paris")
  = inr (mk_Response 401 (inr PNone))
  /\ get_forecast unauthorized_world "Paris"
     = (Returned (failure "API key inválida o no configurada correctamente"),
        ["http://api.openweathermap.org/data/2.5/forecast?q=Paris&appid=k&units=metric"])
  /\ is_infix (str_int 401) "API key inválida o no configurada correctamente" = false.
Proof. repeat split. Qed.

(** ** The two requests of [get_current_time] *)

Lemma geo_url_not_tz (W : World) (city : string) : is_tz_call (geo_url W city) = false.
Proof. reflexivity. Qed.

Lemma tz_url_is_tz (W : World) (lat lon : string) : is_tz_call (tz_url W lat lon) = true.
Proof. reflexivity. Qed.

Lemma get_current_time_run (W : World) (city : string) :
  time_run W city (get_current_time W city).
Proof.
  unfold get_current_time, try_except, get_current_time_body, bind, http_get, lift, ret.
  cbn [app].
  destruct (requests_get W [] (geo_url W city)) as [e | r] eqn:Hreq; [constructor |].
  destruct (status_code r =? 200) eqn:Hcode; cbn [negb]; [| constructor].
  destruct (json r) as [e | geo_data] eqn:Hjson; [constructor |].
  destruct (truthy geo_data) eqn:Ht; cbn [negb]; [| constructor].
  destruct (getitem0 geo_data) as [e | first] eqn:H0; [constructor |].
  destruct (getitem first "lat") as [e | lat] eqn:Hlat; [constructor |].
  destruct (getitem first "lon") as [e | lon]; [constructor |].
  destruct (py_str W lat) as [e | slat]; [constructor |].
  destruct (py_str W lon) as [e | slon]; [constructor |].
  assert (Hgeo : exists x rest, geocoding_result W city = Some (x :: rest)).
  { unfold geocoding_result. rewrite Hreq, Hcode, Hjson.
    destruct geo_data as [| b | z | f | s | l | d]; try discriminate.
    - destruct s; [discriminate |]. inversion H0; subst first. discriminate.
    - destruct l as [| x rest]; [discriminate |]. now exists x, rest. }
  destruct Hgeo as (x & rest & Hgeo).
  destruct (requests_get W [geo_url W city] (tz_url W slat slon)) as [e | rt];
    [now apply (run_both W city x rest) |].
  unfold no_timezone.
  destruct (status_code rt =? 200); [| now apply (run_both W city x rest)].
  destruct (json rt) as [e | tz_data]; [now apply (run_both W city x rest) |].
  destruct (getitem tz_data "status") as [e | status];
    [now apply (run_both W city x rest) |].
  destruct (is_OK status); [| now apply (run_both W city x rest)].
  destruct (getitem tz_data "zoneName") as [e | zone_name];
    [now apply (run_both W city x rest) |].
  destruct (ZoneInfo W zone_name) as [e | tz]; now apply (run_both W city x rest).
Qed.

(** C6: [get_current_time] always asks the geocoder first, and the time-zone
    provider is asked only when the geocoding request came back with status
    200 and a non-empty list; when geocoding fails or finds nothing, no request
    goes to the time-zone provider and the tool returns Failure. *)
Theorem timezone_lookup_after_geocoding :
  forall (W : World) (city : string),
    (snd (get_current_time W city) = [geo_url W city]
     \/ exists lat lon,
          snd (get_current_time W city) = [geo_url W city; tz_url W lat lon])
    /\ (existsb is_tz_call (snd (get_current_time W city)) = true ->
        exists x rest, geocoding_result W city = Some (x :: rest))
    /\ (geocoding_result W city = None \/ geocoding_result W city = Some [] ->
        existsb is_tz_call (snd (get_current_time W city)) = false
        /\ exists msg, get_current_time W city = (Returned (failure msg), [geo_url W city])).
Proof.
  intros W city.
  destruct (get_current_time_run W city) as [msg | x rest lat lon d Hgeo];
    cbn [snd fst]; repeat split.
  - now left.
  - cbn [existsb]. rewrite geo_url_not_tz. discriminate.
  - now exists msg.
  - right. now exists lat, lon.
  - intros _. now exists x, rest.
  - destruct H as [H | H]; rewrite H in Hgeo; discriminate.
  - destruct H as [H | H]; rewrite H in Hgeo; discriminate.
Qed.

Lemma timezone_lookup_after_geocoding_witness :
  geocoding_result nowhere_world "Atlantis" = Some []
  /\ existsb is_tz_call (snd (get_current_time nowhere_world "Atlantis")) = false
  /\ exists msg,
       get_current_time nowhere_world "Atlantis"
       = (Returned (failure msg), [geo_url nowhere_world "Atlantis"]).
Proof.
  split; [reflexivity |].
  apply (proj2 (proj2 (timezone_lookup_after_geocoding nowhere_world "Atlantis"))).
  right. reflexivity.
Defined.

(** ** The report of [get_current_time] *)

Lemma pad2_digits (z : Z) : 0 <= z <= 99 -> digits 2 (pad2 z) = true.
Proof.
  intros Hz.
  assert (Hall : forallb (fun n => digits 2 (pad2 (Z.of_nat n))) (seq 0 100) = true)
    by (vm_compute; reflexivity).
  rewrite forallb_forall in Hall.
  rewrite <- (Z2Nat.id z) by lia. apply Hall, in_seq. lia.
Qed.

Lemma pad4_digits (z : Z) : 0 <= z <= 9999 -> digits 4 (pad4 z) = true.
Proof.
  intros Hz.
  assert (Hall : forallb (fun a =>
                   forallb (fun b => digits 4 (pad4 (100 * Z.of_nat a + Z.of_nat b)))
                           (seq 0 100))
                   (seq 0 100) = true)
    by (vm_compute; reflexivity).
  rewrite forallb_forall in Hall.
  assert (Ha : In (Z.to_nat (z / 100)) (seq 0 100)).
  { apply in_seq. assert (0 <= z / 100 < 100) by (split; [apply Z.div_pos | apply Z.div_lt_upper_bound]; lia). lia. }
  specialize (Hall _ Ha). rewrite forallb_forall in Hall.
  assert (Hb : In (Z.to_nat (z mod 100)) (seq 0 100)).
  { apply in_seq. pose proof (Z.mod_pos_bound z 100). lia. }
  specialize (Hall _ Hb).
  rewrite !Z2Nat.id in Hall.
  - now rewrite <- Z.div_mod in Hall by lia.
  - apply Z.mod_pos_bound. lia.
  - apply Z.div_pos; lia.
Qed.

(** C9: when [get_current_time] returns Success, the geocoding request had
    come back with status 200 and a non-empty list, the time-zone request
    with status 200 and a body whose [status] is the text OK, and the report is
    ["The current time in {city} is "] followed by the time now in the zone
    named by the body, written year-month-day hour:minute:second (four digits
    for the year, two for each other field) and the abbreviation of the
    zone. *)
Theorem get_current_time_success :
  forall (W : World) (city rep : string) (log : list string),
    get_current_time W city = (Returned (success rep), log) ->
    exists x rest lat lon rt tz_data zone_name tz,
      geocoding_result W city = Some (x :: rest)
      /\ log = [geo_url W city; tz_url W lat lon]
      /\ requests_get W [geo_url W city] (tz_url W lat lon) = inr rt
      /\ status_code rt = 200
      /\ json rt = inr tz_data
      /\ getitem tz_data "status" = inr (PStr "OK")
      /\ getitem tz_data "zoneName" = inr zone_name
      /\ ZoneInfo W zone_name = inr tz
      /\ rep = "The current time in " ++ city ++ " is "
                 ++ pad4 (year (datetime_now W tz)) ++ "-"
                 ++ pad2 (month (datetime_now W tz)) ++ "-"
                 ++ pad2 (day (datetime_now W tz)) ++ " "
                 ++ pad2 (hour (datetime_now W tz)) ++ ":"
                 ++ pad2 (minute (datetime_now W tz)) ++ ":"
                 ++ pad2 (second (datetime_now W tz)) ++ " "
                 ++ match tzname (datetime_now W tz) with
                    | Some abbr => abbr
                    | None => EmptyString
                    end
      /\ (valid_datetime (datetime_now W tz) ->
          digits 4 (pad4 (year (datetime_now W tz))) = true
          /\ digits 2 (pad2 (month (datetime_now W tz))) = true
          /\ digits 2 (pad2 (day (datetime_now W tz))) = true
          /\ digits 2 (pad2 (hour (datetime_now W tz))) = true
          /\ digits 2 (pad2 (minute (datetime_now W tz))) = true
          /\ digits 2 (pad2 (second (datetime_now W tz))) = true).
Proof.
  intros W city rep log H.
  revert H.
  unfold get_current_time, try_except, get_current_time_body, bind, http_get, lift, ret.
  cbn [app].
  destruct (requests_get W [] (geo_url W city)) as [e | r] eqn:Hreq; [discriminate |].
  destruct (status_code r =? 200) eqn:Hgcode; [| discriminate]. cbn [negb].
  destruct (json r) as [e | geo_data] eqn:Hgjson; [discriminate |].
  destruct (truthy geo_data) eqn:Ht; [| discriminate]. cbn [negb].
  destruct geo_data as [| b | z | f | s | l | dd]; try discriminate.
  { destruct s as [| c s]; [discriminate |]. discriminate. }
  destruct l as [| x rest]; [discriminate |]. cbn [getitem0 ok].
  destruct (getitem x "lat") as [e | lat]; [discriminate |].
  destruct (getitem x "lon") as [e | lon]; [discriminate |].
  destruct (py_str W lat) as [e | slat']; [discriminate |].
  destruct (py_str W lon) as [e | slon']; [discriminate |].
  destruct (requests_get W [geo_url W city] (tz_url W slat' slon')) as [e | rt] eqn:Hrt;
    [discriminate |].
  unfold no_timezone.
  destruct (status_code rt =? 200) eqn:Hcode; [| discriminate].
  destruct (json rt) as [e | tz_data] eqn:Hjson; [discriminate |].
  destruct (getitem tz_data "status") as [e | status] eqn:Hst; [discriminate |].
  destruct (is_OK status) eqn:Hok; [| discriminate].
  destruct (getitem tz_data "zoneName") as [e | zone_name] eqn:Hzn; [discriminate |].
  destruct (ZoneInfo W zone_name) as [e | tz] eqn:Htz; [discriminate |].
  intros H. injection H as Hrep Hlog.
  exists x, rest, slat', slon', rt, tz_data, zone_name, tz.
  assert (Hstatus : status = PStr "OK").
  { destruct status; try discriminate. cbn in Hok. apply String.eqb_eq in Hok. now subst. }
  subst status. apply Z.eqb_eq in Hcode.
  repeat split; try assumption; try reflexivity; try (now symmetry).
  - unfold geocoding_result. now rewrite Hreq, Hgcode, Hgjson.
  - destruct H as (Hy & _). apply pad4_digits. lia.
  - destruct H as (_ & Hm & _). apply pad2_digits. lia.
  - destruct H as (_ & _ & Hd & _). apply pad2_digits. lia.
  - destruct H as (_ & _ & _ & Hh & _). apply pad2_digits. lia.
  - destruct H as (_ & _ & _ & _ & Hmi & _). apply pad2_digits. lia.
  - destruct H as (_ & _ & _ & _ & _ & Hs). apply pad2_digits. lia.
Qed.

Lemma get_current_time_success_witness :
  get_current_time paris_world "Paris"
  = (Returned (success "The current time in Paris is 2025-06-01 12:30:05 CEST"),
     ["http://api.openweathermap.org/geo/1.0/direct?q=Paris&limit=1&appid=k";
      "http://api.timezonedb.com/v2.1/get-time-zone?key=t&format=json&by=position&lat=48&lng=2"])
  /\ exists x rest, geocoding_result paris_world "Paris" = Some (x :: rest).
Proof.
  split; [reflexivity |].
  destruct (get_current_time_success paris_world "Paris"
              "The current time in Paris is 2025-06-01 12:30:05 CEST"
              ["http://api.openweathermap.org/geo/1.0/direct?q=Paris&limit=1&appid=k";
               "http://api.timezonedb.com/v2.1/get-time-zone?key=t&format=json&by=position&lat=48&lng=2"]
              eq_refl)
    as (x & rest & _ & _ & _ & _ & _ & _ & Hgeo & _).
  now exists x, rest.
Defined.

(** ** The dict of the days *)

Section Dict.
Context {A : Type}.
Implicit Types (d : list (string * A)) (k : string) (v : A).

Lemma dict_get_set_same d k v : dict_get (dict_set d k v) k = Some v.
Proof.
  induction d as [| [k' v'] d IH]; cbn.
  - now rewrite String.eqb_refl.
  - destruct (String.eqb k' k) eqn:E; cbn; rewrite E; [reflexivity | exact IH].
Qed.

Lemma dict_get_set_other d k k' v :
  k <> k' -> dict_get (dict_set d k v) k' = dict_get d k'.
Proof.
  intros Hne. induction d as [| [k0 v0] d IH]; cbn.
  - apply String.eqb_neq in Hne. now rewrite Hne.
  - destruct (String.eqb k0 k) eqn:E; cbn.
    + apply String.eqb_eq in E; subst k0.
      apply String.eqb_neq in Hne. now rewrite Hne.
    + now rewrite IH.
Qed.

Lemma dict_set_set d k v v' : dict_set (dict_set d k v) k v' = dict_set d k v'.
Proof.
  induction d as [| [k0 v0] d IH]; cbn.
  - now rewrite String.eqb_refl.
  - destruct (String.eqb k0 k) eqn:E; cbn; rewrite E; [reflexivity | now rewrite IH].
Qed.

Lemma dict_get_None d k : dict_get d k = None <-> ~ In k (map fst d).
Proof.
  induction d as [| [k0 v0] d IH]; cbn.
  - intuition.
  - destruct (String.eqb k0 k) eqn:E.
    + apply String.eqb_eq in E. split; [discriminate | intros H; elim H; now left].
    + apply String.eqb_neq in E. rewrite IH. intuition.
Qed.

Lemma dict_keys_set_present d k v v' :
  dict_get d k = Some v' -> map fst (dict_set d k v) = map fst d.
Proof.
  induction d as [| [k0 v0] d IH]; cbn; [discriminate |].
  destruct (String.eqb k0 k) eqn:E; cbn; intros H; [reflexivity |].
  now rewrite IH.
Qed.

Lemma dict_keys_set_absent d k v :
  dict_get d k = None -> map fst (dict_set d k v) = (map fst d ++ [k])%list.
Proof.
  induction d as [| [k0 v0] d IH]; cbn; [reflexivity |].
  destruct (String.eqb k0 k) eqn:E; cbn; intros H; [discriminate |].
  now rewrite IH.
Qed.

End Dict.

(** ** Days in the order of their first sample *)

Lemma In_first_seen (l : list string) (d : string) : In d (first_seen l) <-> In d l.
Proof.
  induction l as [| a l IH]; cbn; [reflexivity |].
  rewrite filter_In, IH, negb_true_iff, String.eqb_neq.
  destruct (string_dec a d) as [-> | Hne]; [intuition |].
  intuition congruence.
Qed.



Lemma first_seen_snoc_new (l : list string) (x : string) :
  ~ In x l -> first_seen (l ++ [x]) = (first_seen l ++ [x])%list.
Proof.
  induction l as [| a l IH]; cbn; [reflexivity |].
  intros Hnot. f_equal. rewrite IH by tauto.
  rewrite filter_app. f_equal. cbn.
  assert (Hxa : x <> a) by (intros ->; tauto).
  apply String.eqb_neq in Hxa. now rewrite Hxa.
Qed.

Lemma first_seen_snoc_old (l : list string) (x : string) :
  In x l -> first_seen (l ++ [x]) = first_seen l.
Proof.
  induction l as [| a l IH]; cbn; [intros [] |].
  intros Hin. f_equal.
  destruct (in_dec string_dec x l) as [Hx | Hx].
  - now rewrite IH.
  - destruct Hin as [-> | Hin]; [| contradiction].
    rewrite first_seen_snoc_new by exact Hx.
    rewrite filter_app. cbn. rewrite String.eqb_refl. cbn. apply app_nil_r.
Qed.

(** ** The order on numbers *)

Lemma xlt_fin (p q : Q) : xlt (XFin p) (XFin q) = true <-> (p < q)%Q.
Proof.
  cbn. rewrite Qlt_alt. destruct (p ?= q)%Q; intuition discriminate.
Qed.

Lemma xlt_irrefl (x : xreal) : xlt x x = false.
Proof.
  destruct x as [| q |]; try reflexivity.
  destruct (xlt (XFin q) (XFin q)) eqn:E; [| reflexivity].
  apply xlt_fin in E. now apply Qlt_irrefl in E.
Qed.

Lemma xlt_trans (x y z : xreal) : xlt x y = true -> xlt y z = true -> xlt x z = true.
Proof.
  destruct x as [| p |], y as [| q |], z as [| r |]; try reflexivity; try discriminate.
  rewrite !xlt_fin. apply Qlt_trans.
Qed.

Lemma num_lt_irrefl (v : pyval) : num_lt v v = false.
Proof. unfold num_lt. destruct (num_value v); [apply xlt_irrefl | reflexivity]. Qed.

Lemma num_lt_trans (a b c : pyval) :
  num_lt a b = true -> num_lt b c = true -> num_lt a c = true.
Proof.
  unfold num_lt.
  destruct (num_value a), (num_value b), (num_value c); try discriminate.
  apply xlt_trans.
Qed.



(** ** One more sample of a day *)

Lemma entry_inv_new : entry_inv [] new_day.
Proof.
  constructor; cbn; try reflexivity; try (intros ? []); try (now left).
Qed.

Lemma ForallOrdPairs_snoc {A : Type} (R : A -> A -> Prop) (l : list A) (v : A) :
  ForallOrdPairs R l -> (forall y, In y l -> R y v) -> ForallOrdPairs R (l ++ [v]).
Proof.
  induction 1 as [| a l Ha Hl IH]; cbn; intros Hv.
  - constructor; constructor.
  - constructor.
    + apply Forall_app. split; [exact Ha |].
      constructor; [apply Hv; now left | constructor].
    + apply IH. intros y Hy. apply Hv. now right.
Qed.

Lemma existsb_false_all {A : Type} (p : A -> bool) (l : list A) :
  existsb p l = false -> forall y, In y l -> p y = false.
Proof.
  intros H y Hy. destruct (p y) eqn:E; [| reflexivity].
  assert (existsb p l = true) by (apply existsb_exists; eauto). congruence.
Qed.

Lemma entry_inv_merge (day : list Sample) (e : DayAgg) (s : Sample) :
  entry_inv day e ->
  is_number (s_min s) = true -> is_number (s_max s) = true ->
  entry_inv (day ++ [s]) (merge_sample e s).
Proof.
  intros [Hmn Hxn Hmb Hxb Hmf Hxf Hdf Hda Hdo] Hlo Hhi.
  constructor; cbn [merge_sample temp_min temp_max descriptions].
  - now destruct (num_lt (s_min s) (temp_min e)).
  - now destruct (num_lt (temp_max e) (s_max s)).
  - intros s' Hin. apply in_app_or in Hin.
    destruct (num_lt (s_min s) (temp_min e)) eqn:Hlt.
    + destruct Hin as [Hin | [<- | []]]; [| apply num_lt_irrefl].
      destruct (num_lt (s_min s') (s_min s)) eqn:E; [| reflexivity].
      rewrite <- (Hmb s' Hin). symmetry. now apply (num_lt_trans _ (s_min s)).
    + destruct Hin as [Hin | [<- | []]]; [now apply Hmb | exact Hlt].
  - intros s' Hin. apply in_app_or in Hin.
    destruct (num_lt (temp_max e) (s_max s)) eqn:Hlt.
    + destruct Hin as [Hin | [<- | []]]; [| apply num_lt_irrefl].
      destruct (num_lt (s_max s) (s_max s')) eqn:E; [| reflexivity].
      rewrite <- (Hxb s' Hin). symmetry. now apply (num_lt_trans _ (s_max s)).
    + destruct Hin as [Hin | [<- | []]]; [now apply Hxb | exact Hlt].
  - destruct (num_lt (s_min s) (temp_min e)).
    + right. exists s. split; [apply in_or_app; right; now left | reflexivity].
    + destruct Hmf as [Hinf | (s' & Hin & Heq)]; [now left |].
      right. exists s'. split; [apply in_or_app; now left | exact Heq].
  - destruct (num_lt (temp_max e) (s_max s)).
    + right. exists s. split; [apply in_or_app; right; now left | reflexivity].
    + destruct Hxf as [Hinf | (s' & Hin & Heq)]; [now left |].
      right. exists s'. split; [apply in_or_app; now left | exact Heq].
  - intros y Hy.
    destruct (existsb (fun y0 => py_eq y0 (s_desc s)) (descriptions e)).
    + destruct (Hdf y Hy) as (s' & Hin & Heq).
      exists s'. split; [apply in_or_app; now left | exact Heq].
    + apply in_app_or in Hy. destruct Hy as [Hy | [<- | []]].
      * destruct (Hdf y Hy) as (s' & Hin & Heq).
        exists s'. split; [apply in_or_app; now left | exact Heq].
      * exists s. split; [apply in_or_app; right; now left | reflexivity].
  - intros s' Hin. apply in_app_or in Hin.
    destruct (existsb (fun y => py_eq y (s_desc s)) (descriptions e)) eqn:Hex.
    + destruct Hin as [Hin | [<- | []]]; [now apply Hda | now right].
    + destruct Hin as [Hin | [<- | []]].
      * destruct (Hda s' Hin) as [H | H].
        -- left. apply in_or_app. now left.
        -- right. rewrite existsb_app, H. reflexivity.
      * left. apply in_or_app. right. now left.
  - destruct (existsb (fun y => py_eq y (s_desc s)) (descriptions e)) eqn:Hex;
      [exact Hdo |].
    apply ForallOrdPairs_snoc; [exact Hdo |].
    exact (existsb_false_all _ _ Hex).
Qed.

(** ** One round of the grouping loop *)

Lemma lookup_after_init (daily : list (string * DayAgg)) (date : string) :
  dict_lookup
    match dict_get daily date with
    | None => dict_set daily date new_day
    | Some _ => daily
    end date
  = inr (entry_of daily date).
Proof.
  unfold dict_lookup, entry_of.
  destruct (dict_get daily date) as [e |] eqn:E.
  - now rewrite E.
  - now rewrite dict_get_set_same.
Qed.

Lemma set_after_init (daily : list (string * DayAgg)) (date : string) (e : DayAgg) :
  dict_set
    match dict_get daily date with
    | None => dict_set daily date new_day
    | Some _ => daily
    end date e
  = dict_set daily date e.
Proof.
  destruct (dict_get daily date); [reflexivity | apply dict_set_set].
Qed.


Lemma forecast_step_read (W : World) (daily : list (string * DayAgg)) (f : pyval)
      (s : Sample) :
  read_sample W f = inr s ->
  is_number (s_min s) = true -> is_number (s_max s) = true ->
  hashable (s_desc s) = true ->
  is_number (temp_min (entry_of daily (s_date s))) = true ->
  is_number (temp_max (entry_of daily (s_date s))) = true ->
  forecast_step W daily f
  = inr (dict_set daily (s_date s) (merge_sample (entry_of daily (s_date s)) s)).
Proof.
  unfold forecast_step, read_sample, sample_temp_min, sample_temp_max,
    sample_description.
  destruct (sample_date W f) as [e | date]; cbn [rbind]; [discriminate |].
  rewrite lookup_after_init. cbn [rbind].
  destruct (getitem f "main") as [e | main]; cbn [rbind]; [discriminate |].
  destruct (getitem main "temp_min") as [e | lo]; cbn [rbind]; [discriminate |].
  destruct (getitem main "temp_max") as [e | hi]; cbn [rbind]; [discriminate |].
  destruct (getitem f "weather") as [e | weather]; cbn [rbind]; [discriminate |].
  destruct (getitem0 weather) as [e | weather0]; cbn [rbind]; [discriminate |].
  destruct (getitem weather0 "description") as [e | desc]; cbn [rbind]; [discriminate |].
  intros H. injection H as <-. cbn [s_min s_max s_desc s_date].
  intros Hlo Hhi Hh Hmn Hxn.
  unfold py_min, py_max, set_add. rewrite Hlo, Hhi, Hh, Hmn, Hxn. cbn [andb rbind ok].
  now rewrite set_after_init.
Qed.

(** ** The grouping loop *)

Lemma on_day_snoc (d : string) (ss : list Sample) (s : Sample) :
  on_day d (ss ++ [s])
  = (on_day d ss ++ if String.eqb (s_date s) d then [s] else [])%list.
Proof. unfold on_day. rewrite filter_app. reflexivity. Qed.

Lemma on_day_none (d : string) (ss : list Sample) :
  ~ In d (map s_date ss) -> on_day d ss = [].
Proof.
  induction ss as [| s ss IH]; cbn; [reflexivity |].
  intros Hnot. destruct (String.eqb (s_date s) d) eqn:E.
  - apply String.eqb_eq in E. tauto.
  - apply IH. tauto.
Qed.



Lemma daily_inv_nil : daily_inv [] [].
Proof. split; [reflexivity | discriminate]. Qed.

Lemma daily_inv_keys (daily : list (string * DayAgg)) (ss : list Sample) (d : string) :
  daily_inv daily ss -> (dict_get daily d = None <-> ~ In d (map s_date ss)).
Proof.
  intros [Hk _]. rewrite dict_get_None, Hk, In_first_seen. reflexivity.
Qed.

Lemma entry_of_inv (daily : list (string * DayAgg)) (ss : list Sample) (d : string) :
  daily_inv daily ss -> entry_inv (on_day d ss) (entry_of daily d).
Proof.
  intros Hinv. unfold entry_of.
  destruct (dict_get daily d) as [e |] eqn:E.
  - now apply (proj2 Hinv).
  - apply (daily_inv_keys _ _ d Hinv) in E.
    rewrite on_day_none by exact E. apply entry_inv_new.
Qed.

Lemma daily_inv_step (daily : list (string * DayAgg)) (ss : list Sample) (s : Sample) :
  daily_inv daily ss ->
  is_number (s_min s) = true -> is_number (s_max s) = true ->
  daily_inv (dict_set daily (s_date s) (merge_sample (entry_of daily (s_date s)) s))
            (ss ++ [s]).
Proof.
  intros Hinv Hlo Hhi. split.
  - rewrite map_app. cbn [map].
    destruct (dict_get daily (s_date s)) as [e |] eqn:E.
    + rewrite (dict_keys_set_present _ _ _ _ E), (proj1 Hinv).
      symmetry. apply first_seen_snoc_old.
      destruct (in_dec string_dec (s_date s) (map s_date ss)) as [H | H]; [exact H |].
      apply (daily_inv_keys _ _ _ Hinv) in H. congruence.
    + rewrite (dict_keys_set_absent _ _ _ E), (proj1 Hinv).
      symmetry. apply first_seen_snoc_new.
      now apply (daily_inv_keys _ _ _ Hinv).
  - intros d e Hget. rewrite on_day_snoc.
    destruct (string_dec (s_date s) d) as [<- | Hne].
    + rewrite dict_get_set_same in Hget. injection Hget as <-.
      rewrite String.eqb_refl.
      apply entry_inv_merge; [now apply entry_of_inv | exact Hlo | exact Hhi].
    + rewrite dict_get_set_other in Hget by exact Hne.
      apply String.eqb_neq in Hne. rewrite Hne, app_nil_r.
      now apply (proj2 Hinv).
Qed.


(** The loop ends on samples that can be read, with numbers for the
    temperatures and a hashable description. *)
Lemma group_by_day_total (W : World) (l : list pyval) :
  forall daily done ss,
    daily_inv daily done ->
    Forall2 (fun f s => read_sample W f = inr s) l ss ->
    Forall (fun s => is_number (s_min s) = true /\ is_number (s_max s) = true
                     /\ hashable (s_desc s) = true) ss ->
    exists daily',
      group_by_day W daily l = inr daily' /\ daily_inv daily' (done ++ ss).
Proof.
  induction l as [| f l IH]; intros daily done ss Hinv Hread Hok;
    inversion Hread as [| ? s ? ss' Hf Hrest]; subst; cbn [group_by_day].
  - exists daily. split; [reflexivity | now rewrite app_nil_r].
  - inversion Hok as [| ? ? (Hlo & Hhi & Hh) Hok']; subst.
    pose proof (entry_of_inv _ _ (s_date s) Hinv) as He.
    rewrite (forecast_step_read W daily f s Hf Hlo Hhi Hh
               (inv_min_number _ _ He) (inv_max_number _ _ He)).
    cbn [rbind].
    destruct (IH _ (done ++ [s])%list ss' (daily_inv_step _ _ _ Hinv Hlo Hhi) Hrest Hok')
      as (daily' & Hrun & Hinv').
    exists daily'. split; [exact Hrun | now rewrite <- app_assoc in Hinv'].
Qed.




(** ** The report of [get_forecast] *)











(** ** Readings that are not doubles *)

(** An [int] reading goes the same way as the double: 15 is written 15.0, and
    59.0 in Fahrenheit. *)
Example get_weather_int_reading :
  get_weather
    (test_world (Some "k") (Some "t")
       (answer 200
          (PDict [("main", PDict [("temp", PInt 15)]);
                  ("weather", PList [PDict [("description", PStr "clear sky")]])])))
    "London"
  = (Returned
       (success "The weather in London is clear sky with a temperature of 15.0°C (59.0°F)."),
     ["http://api.openweathermap.org/data/2.5/weather?q=London&appid=k&units=metric"]).
Proof. reflexivity. Qed.

(** A reading that is not a number at all ends in the Failure of the caught
    [TypeError]. *)
Example get_weather_text_reading :
  get_weather
    (test_world (Some "k") (Some "t")
       (answer 200
          (PDict [("main", PDict [("temp", PStr "15")]);
                  ("weather", PList [PDict [("description", PStr "clear sky")]])])))
    "London"
  = (Returned
       (failure
          "Error getting weather data: unsupported operand type(s) for /: 'str' and 'int'"),
     ["http://api.openweathermap.org/data/2.5/weather?q=London&appid=k&units=metric"]).
Proof. reflexivity. Qed.

(** NaN has no place in the order: every comparison with it is false, so a
    NaN reading never replaces the running bound, and a day whose only reading
    is NaN keeps the bound it started with. *)
Example nan_reading_keeps_start :
  group_by_day week_world []
    [PDict [("dt", PInt 0);
            ("main", PDict [("temp_min", PFloat S754_nan); ("temp_max", PFloat S754_nan)]);
            ("weather", PList [PDict [("description", PStr "haze")]])]]
  = inr [("2025-01-01",
          {| temp_min := PFloat float_inf;
             temp_max := PFloat float_neg_inf;
             descriptions := [PStr "haze"] |})].
Proof. reflexivity. Qed.

(** * Further properties of the tools *)

(** Case analysis on the innermost scrutinee of the goal. *)
Ltac destruct_inner :=
  match goal with
  | |- context [match ?x with _ => _ end] =>
      lazymatch x with
      | context [match _ with _ => _ end] => fail
      | _ => destruct x
      end
  end.

(** ** [get_weather] *)

Lemma to_fahrenheit_number (v f : pyval) :
  to_fahrenheit v = inr f -> is_number v = true.
Proof.
  intros H. destruct v; try reflexivity; cbn in H; discriminate H.
Qed.

(** X1: [get_weather] returns Success only from an answer with status 200
    whose body has a number (an [int], a [bool] or a [float]) at [main.temp],
    and after exactly one request. *)
Theorem get_weather_success_only_on_200 :
  forall (W : World) (city rep : string) (log : list string),
    get_weather W city = (Returned (success rep), log) ->
    exists r data main temp_c,
      requests_get W [] (weather_url W city) = inr r
      /\ status_code r = 200
      /\ json r = inr data
      /\ getitem data "main" = inr main
      /\ getitem main "temp" = inr temp_c
      /\ is_number temp_c = true
      /\ log = [weather_url W city].
Proof.
  intros W city rep log.
  unfold get_weather, try_except, get_weather_body, bind, http_get, lift, ret.
  cbn [app].
  destruct (requests_get W [] (weather_url W city)) as [e | r] eqn:Hreq; [discriminate |].
  destruct (status_code r =? 200) eqn:Hcode; [| discriminate].
  destruct (json r) as [e | data] eqn:Hjson; [discriminate |].
  destruct (getitem data "main") as [e | main] eqn:Hmain; [discriminate |].
  destruct (getitem main "temp") as [e | temp_c] eqn:Htemp; [discriminate |].
  destruct (to_fahrenheit temp_c) as [e | temp_f] eqn:Hf; [discriminate |].
  intros H. exists r, data, main, temp_c.
  apply Z.eqb_eq in Hcode. apply to_fahrenheit_number in Hf.
  repeat split; try assumption; try reflexivity.
  revert H. repeat (destruct_inner; try discriminate).
  intros H. now inversion H.
Qed.

Lemma get_weather_success_only_on_200_witness :
  exists r data main temp_c,
    requests_get london_world [] (weather_url london_world "London") = inr r
    /\ status_code r = 200
    /\ json r = inr data
    /\ getitem data "main" = inr main
    /\ getitem main "temp" = inr temp_c
    /\ is_number temp_c = true
    /\ ["http://api.openweathermap.org/data/2.5/weather?q=London&appid=k&units=metric"]
       = [weather_url london_world "London"].
Proof.
  exact (get_weather_success_only_on_200 london_world "London"
           "The weather in London is clear sky with a temperature of 15.0°C (59.0°F)."
           ["http://api.openweathermap.org/data/2.5/weather?q=London&appid=k&units=metric"]
           eq_refl).
Defined.

(** X2: a 200 answer whose body is a dict that lacks one of the keys the
    report is read from ([main], then [temp] in it) makes [get_weather] return
    the Failure whose message is the prefix and the missing key in quotes. *)
Theorem get_weather_missing_key :
  forall (W : World) (city : string) (r : Response) (d : list (string * pyval)),
    requests_get W [] (weather_url W city) = inr r ->
    status_code r = 200 ->
    json r = inr (PDict d) ->
    (dict_get d "main" = None ->
     get_weather W city
     = (Returned (failure "Error getting weather data: 'main'"), [weather_url W city]))
    /\ (forall m, dict_get d "main" = Some (PDict m) -> dict_get m "temp" = None ->
        get_weather W city
        = (Returned (failure "Error getting weather data: 'temp'"), [weather_url W city])).
Proof.
  intros W city r d Hreq Hcode Hjson. split.
  - intros Hmain.
    rewrite (get_weather_raised W city (mk_exn "KeyError" "'main'") [weather_url W city]);
      [reflexivity |].
    unfold get_weather_body, bind, http_get, lift. cbn [app].
    rewrite Hreq, Hcode. cbn [Z.eqb Pos.eqb]. rewrite Hjson.
    unfold getitem. now rewrite Hmain.
  - intros m Hmain Htemp.
    rewrite (get_weather_raised W city (mk_exn "KeyError" "'temp'") [weather_url W city]);
      [reflexivity |].
    unfold get_weather_body, bind, http_get, lift. cbn [app].
    rewrite Hreq, Hcode. cbn [Z.eqb Pos.eqb]. rewrite Hjson.
    unfold getitem at 1. rewrite Hmain. cbn [ok].
    unfold getitem at 1. now rewrite Htemp.
Qed.

Lemma get_weather_missing_key_witness :
  get_weather (test_world (Some "k") None (answer 200 (PDict [("cod", PInt 200)]))) "Oslo"
  = (Returned (failure "Error getting weather data: 'main'"),
     ["http://api.openweathermap.org/data/2.5/weather?q=Oslo&appid=k&units=metric"]).
Proof.
  exact (proj1 (get_weather_missing_key
                  (test_world (Some "k") None (answer 200 (PDict [("cod", PInt 200)])))
                  "Oslo" (mk_Response 200 (inr (PDict [("cod", PInt 200)])))
                  [("cod", PInt 200)] eq_refl eq_refl eq_refl) eq_refl).
Defined.

(** X3: a 200 answer with a reading but an empty [weather] list makes
    [get_weather] return the Failure of the caught [IndexError]; the reading is
    not reported. *)
Theorem get_weather_empty_weather_list :
  forall (W : World) (city : string) (r : Response) (data main : pyval) (c : spec_float),
    requests_get W [] (weather_url W city) = inr r ->
    status_code r = 200 ->
    json r = inr data ->
    getitem data "main" = inr main ->
    getitem main "temp" = inr (PFloat c) ->
    getitem data "weather" = inr (PList []) ->
    get_weather W city
    = (Returned (failure "Error getting weather data: list index out of range"),
       [weather_url W city]).
Proof.
  intros W city r data main c Hreq Hcode Hjson Hmain Htemp Hw.
  rewrite (get_weather_raised W city (mk_exn "IndexError" "list index out of range")
             [weather_url W city]); [reflexivity |].
  unfold get_weather_body, bind, http_get, lift. cbn [app].
  rewrite Hreq, Hcode. cbn [Z.eqb Pos.eqb].
  now rewrite Hjson, Hmain, Htemp, to_fahrenheit_float, Hw.
Qed.

Lemma get_weather_empty_weather_list_witness :
  get_weather
    (test_world (Some "k") None
       (answer 200 (PDict [("main", PDict [("temp", PFloat float_15)]);
                           ("weather", PList [])])))
    "Oslo"
  = (Returned (failure "Error getting weather data: list index out of range"),
     ["http://api.openweathermap.org/data/2.5/weather?q=Oslo&appid=k&units=metric"]).
Proof.
  exact (get_weather_empty_weather_list
           (test_world (Some "k") None
              (answer 200 (PDict [("main", PDict [("temp", PFloat float_15)]);
                                  ("weather", PList [])])))
           "Oslo"
           (mk_Response 200 (inr (PDict [("main", PDict [("temp", PFloat float_15)]);
                                        ("weather", PList [])])))
           (PDict [("main", PDict [("temp", PFloat float_15)]); ("weather", PList [])])
           (PDict [("temp", PFloat float_15)]) float_15
           eq_refl eq_refl eq_refl eq_refl eq_refl eq_refl).
Defined.

(** ** [get_current_time] *)

(** X4: when the geocoding request comes back with a status other than 200,
    [get_current_time] returns the Failure "Could not find coordinates for
    {city}" after that one request; the body of the answer is not decoded. *)
Theorem get_current_time_geocoding_status :
  forall (W : World) (city : string) (r : Response),
    requests_get W [] (geo_url W city) = inr r ->
    status_code r <> 200 ->
    get_current_time W city
    = (Returned (failure ("Could not find coordinates for " ++ city)), [geo_url W city]).
Proof.
  intros W city r Hreq Hcode. apply Z.eqb_neq in Hcode.
  unfold get_current_time, try_except, get_current_time_body, bind, http_get, ret.
  cbn [app]. now rewrite Hreq, Hcode.
Qed.

Lemma get_current_time_geocoding_status_witness :
  get_current_time unavailable_world "Paris"
  = (Returned (failure "Could not find coordinates for Paris"),
     ["http://api.openweathermap.org/geo/1.0/direct?q=Paris&limit=1&appid=k"]).
Proof.
  apply (get_current_time_geocoding_status unavailable_world "Paris"
           (mk_Response 503 (inr PNone)) eq_refl).
  discriminate.
Defined.

(** X5: when the geocoding request comes back with status 200 and a body
    that is false for Python (the empty list, but also [null], [{}], [0],
    the empty string), [get_current_time] returns the Failure "City '{city}'
    not found" after that one request. *)
Theorem get_current_time_city_not_found :
  forall (W : World) (city : string) (r : Response) (geo_data : pyval),
    requests_get W [] (geo_url W city) = inr r ->
    status_code r = 200 ->
    json r = inr geo_data ->
    truthy geo_data = false ->
    get_current_time W city
    = (Returned (failure ("City '" ++ city ++ "' not found")), [geo_url W city]).
Proof.
  intros W city r geo_data Hreq Hcode Hjson Hfalse.
  unfold get_current_time, try_except, get_current_time_body, bind, http_get, lift, ret.
  cbn [app]. rewrite Hreq, Hcode. cbn [Z.eqb Pos.eqb negb].
  now rewrite Hjson, Hfalse.
Qed.

Lemma get_current_time_city_not_found_witness :
  get_current_time nowhere_world "Atlantis"
  = (Returned (failure "City 'Atlantis' not found"),
     ["http://api.openweathermap.org/geo/1.0/direct?q=Atlantis&limit=1&appid=k"]).
Proof.
  exact (get_current_time_city_not_found nowhere_world "Atlantis"
           (mk_Response 200 (inr (PList []))) (PList []) eq_refl eq_refl eq_refl eq_refl).
Defined.

Lemma get_current_time_after_geocoding (W : World) (city slat slon : string) :
  geocoded W city slat slon ->
  get_current_time_body W city []
  = (tz_response <- http_get W (tz_url W slat slon) ;;
     if status_code tz_response =? 200 then
       tz_data <- lift (json tz_response) ;;
       status <- lift (getitem tz_data "status") ;;
       if is_OK status then
         zone_name <- lift (getitem tz_data "zoneName") ;;
         tz <- lift (ZoneInfo W zone_name) ;;
         ret (success (time_report city (strftime_full (datetime_now W tz))))
       else ret (no_timezone city)
     else ret (no_timezone city)) [geo_url W city].
Proof.
  intros (r & first & rest & lat & lon & Hreq & Hcode & Hjson & Hlat & Hlon & Hslat & Hslon).
  unfold get_current_time_body at 1. unfold bind at 1. unfold http_get at 1.
  cbn [app]. rewrite Hreq, Hcode. cbn [Z.eqb Pos.eqb negb].
  unfold bind at 1. unfold lift at 1. rewrite Hjson. cbn [truthy negb].
  unfold bind at 1. unfold lift at 1. cbn [getitem0 ok].
  unfold bind at 1. unfold lift at 1. rewrite Hlat.
  unfold bind at 1. unfold lift at 1. cbn [getitem0 ok].
  unfold bind at 1. unfold lift at 1. rewrite Hlon.
  unfold bind at 1. unfold lift at 1. rewrite Hslat.
  unfold bind at 1. unfold lift at 1. rewrite Hslon.
  reflexivity.
Qed.

(** X6: once the city is geocoded, an answer of the time-zone provider with
    a status other than 200, or with status 200 and a [status] field that is
    not the text OK, makes [get_current_time] return the Failure "Could not get
    timezone information for {city}", after the two requests. *)
Theorem get_current_time_no_timezone :
  forall (W : World) (city slat slon : string) (rt : Response),
    geocoded W city slat slon ->
    requests_get W [geo_url W city] (tz_url W slat slon) = inr rt ->
    (status_code rt <> 200
     \/ exists tz_data status,
          json rt = inr tz_data /\ getitem tz_data "status" = inr status
          /\ is_OK status = false) ->
    get_current_time W city
    = (Returned (failure ("Could not get timezone information for " ++ city)),
       [geo_url W city; tz_url W slat slon]).
Proof.
  intros W city slat slon rt Hgeo Hreq Hbad.
  unfold get_current_time, try_except.
  rewrite (get_current_time_after_geocoding W city slat slon Hgeo).
  unfold bind, http_get, lift, ret, no_timezone. cbn [app]. rewrite Hreq.
  destruct Hbad as [Hcode | (tz_data & status & Hjson & Hst & Hok)].
  - apply Z.eqb_neq in Hcode. now rewrite Hcode.
  - destruct (status_code rt =? 200); [| reflexivity].
    now rewrite Hjson, Hst, Hok.
Qed.

(** X7: once the city is geocoded (only the first match is read), an answer
    of the time-zone provider with status 200, [status] OK and a [zoneName] the
    zone database knows makes [get_current_time] return Success with the time
    now in that zone, after the two requests, the second carrying the
    coordinates of the first match. *)
Theorem get_current_time_succeeds :
  forall (W : World) (city slat slon : string) (rt : Response)
         (tz_data zone_name : pyval) (tz : tzinfo),
    geocoded W city slat slon ->
    requests_get W [geo_url W city] (tz_url W slat slon) = inr rt ->
    status_code rt = 200 ->
    json rt = inr tz_data ->
    getitem tz_data "status" = inr (PStr "OK") ->
    getitem tz_data "zoneName" = inr zone_name ->
    ZoneInfo W zone_name = inr tz ->
    get_current_time W city
    = (Returned
         (success ("The current time in " ++ city ++ " is "
                     ++ strftime_full (datetime_now W tz))),
       [geo_url W city; tz_url W slat slon]).
Proof.
  intros W city slat slon rt tz_data zone_name tz Hgeo Hreq Hcode Hjson Hst Hzn Htz.
  unfold get_current_time, try_except.
  rewrite (get_current_time_after_geocoding W city slat slon Hgeo).
  unfold bind, http_get, lift, ret. cbn [app]. rewrite Hreq, Hcode.
  cbn [Z.eqb Pos.eqb]. rewrite Hjson, Hst. cbn [is_OK String.eqb Ascii.eqb Bool.eqb].
  now rewrite Hzn, Htz.
Qed.

Lemma paris_geocoded : geocoded paris_world "Paris" "48" "2".
Proof.
  exists (mk_Response 200 (inr (PList [PDict [("lat", PInt 48); ("lon", PInt 2)]]))),
    (PDict [("lat", PInt 48); ("lon", PInt 2)]), [], (PInt 48), (PInt 2).
  repeat split.
Defined.

Lemma zoneless_geocoded : geocoded zoneless_world "Paris" "48" "2".
Proof.
  exists (mk_Response 200 (inr (PList [PDict [("lat", PInt 48); ("lon", PInt 2)]]))),
    (PDict [("lat", PInt 48); ("lon", PInt 2)]), [], (PInt 48), (PInt 2).
  repeat split.
Defined.

Lemma get_current_time_no_timezone_witness :
  geocoded zoneless_world "Paris" "48" "2"
  /\ get_current_time zoneless_world "Paris"
     = (Returned (failure "Could not get timezone information for Paris"),
        ["http://api.openweathermap.org/geo/1.0/direct?q=Paris&limit=1&appid=k";
         "http://api.timezonedb.com/v2.1/get-time-zone?key=t&format=json&by=position&lat=48&lng=2"]).
Proof.
  split; [exact zoneless_geocoded |].
  apply (get_current_time_no_timezone zoneless_world "Paris" "48" "2"
           (mk_Response 200
              (inr (PDict [("status", PStr "FAILED"); ("message", PStr "Record not found.")])))
           zoneless_geocoded eq_refl).
  right. exists (PDict [("status", PStr "FAILED"); ("message", PStr "Record not found.")]),
    (PStr "FAILED").
  repeat split.
Defined.

Lemma get_current_time_succeeds_witness :
  geocoded paris_world "Paris" "48" "2"
  /\ get_current_time paris_world "Paris"
     = (Returned (success "The current time in Paris is 2025-06-01 12:30:05 CEST"),
        ["http://api.openweathermap.org/geo/1.0/direct?q=Paris&limit=1&appid=k";
         "http://api.timezonedb.com/v2.1/get-time-zone?key=t&format=json&by=position&lat=48&lng=2"]).
Proof.
  split; [exact paris_geocoded |].
  exact (get_current_time_succeeds paris_world "Paris" "48" "2"
           (mk_Response 200
              (inr (PDict [("status", PStr "OK"); ("zoneName", PStr "Europe/Paris")])))
           (PDict [("status", PStr "OK"); ("zoneName", PStr "Europe/Paris")])
           (PStr "Europe/Paris") (mk_tzinfo "Europe/Paris")
           paris_geocoded eq_refl eq_refl eq_refl eq_refl eq_refl eq_refl).
Defined.

(** X8: [get_current_time] checks neither credential.  With both unset it
    still sends the geocoding request, with [appid=None], and every request
    that follows goes to the time-zone provider with [key=None]; none of its
    Failures is the missing-credential message of [get_forecast]. *)
Theorem get_current_time_no_credential_check :
  forall (W : World) (city : string),
    OPENWEATHER_API_KEY W = None ->
    TIMEZONEDB_API_KEY W = None ->
    (exists rest,
       snd (get_current_time W city)
       = ("http://api.openweathermap.org/geo/1.0/direct?q=" ++ city
            ++ "&limit=1&appid=None") :: rest
       /\ forall url, In url rest ->
            exists lat lon,
              url = "http://api.timezonedb.com/v2.1/get-time-zone?key=None"
                      ++ "&format=json&by=position&lat=" ++ lat ++ "&lng=" ++ lon)
    /\ fst (get_current_time W city) <> Returned (failure missing_key_message).
Proof.
  intros W city Hw Ht.
  assert (Hgeo : geo_url W city
                 = "http://api.openweathermap.org/geo/1.0/direct?q=" ++ city
                     ++ "&limit=1&appid=None")
    by (unfold geo_url; now rewrite Hw).
  assert (Htz : forall lat lon,
             tz_url W lat lon
             = "http://api.timezonedb.com/v2.1/get-time-zone?key=None"
                 ++ "&format=json&by=position&lat=" ++ lat ++ "&lng=" ++ lon)
    by (intros lat lon; unfold tz_url; now rewrite Ht).
  split.
  - destruct (get_current_time_run W city) as [msg | x rest lat lon d _]; cbn [snd].
    + exists []. split; [now rewrite Hgeo | intros url []].
    + exists [tz_url W lat lon]. split; [now rewrite Hgeo |].
      intros url [<- | []]. exists lat, lon. apply Htz.
  - unfold get_current_time, try_except, get_current_time_body, bind, http_get, lift,
      ret, no_timezone.
    cbn [app].
    repeat (destruct_inner; cbn [negb fst]; try discriminate).
Qed.

Lemma get_current_time_no_credential_check_witness :
  exists rest,
    snd (get_current_time (test_world None None paris_net) "Paris")
    = "http://api.openweathermap.org/geo/1.0/direct?q=Paris&limit=1&appid=None" :: rest.
Proof.
  destruct (proj1 (get_current_time_no_credential_check
                     (test_world None None paris_net) "Paris" eq_refl eq_refl))
    as (rest & Hlog & _).
  exists rest. exact Hlog.
Defined.

(** ** [get_forecast] *)

Lemma get_forecast_on_200 (W : World) (city : string) (r : Response) :
  key_truthy (OPENWEATHER_API_KEY W) = true ->
  requests_get W [] (forecast_url W city) = inr r ->
  status_code r = 200 ->
  get_forecast_body W city []
  = (data <- lift (json r) ;;
     forecast_list <- lift (getitem data "list") ;;
     samples <- lift (py_iter forecast_list) ;;
     daily_forecasts <- lift (group_by_day W [] samples) ;;
     report <- lift (render_days W (forecast_header city) (firstn 5 daily_forecasts)) ;;
     ret (success report)) [forecast_url W city].
Proof.
  intros Hkey Hreq Hcode.
  unfold get_forecast_body. rewrite Hkey. cbn [negb].
  unfold bind at 1. unfold http_get at 1. cbn [app].
  now rewrite Hreq, Hcode.
Qed.

(** X9: a 200 answer whose [list] has nothing to go through (the empty list,
    and also an empty dict or an empty string) makes [get_forecast] return
    Success with the header alone as the report: no day block, no error. *)
Theorem get_forecast_no_samples :
  forall (W : World) (city : string) (r : Response) (data forecast_list : pyval),
    key_truthy (OPENWEATHER_API_KEY W) = true ->
    requests_get W [] (forecast_url W city) = inr r ->
    status_code r = 200 ->
    json r = inr data ->
    getitem data "list" = inr forecast_list ->
    py_iter forecast_list = inr [] ->
    get_forecast W city
    = (Returned (success ("Pronóstico del tiempo para " ++ city ++ ":" ++ nl ++ nl)),
       [forecast_url W city]).
Proof.
  intros W city r data forecast_list Hkey Hreq Hcode Hjson Hlist Hiter.
  unfold get_forecast, try_except.
  rewrite (get_forecast_on_200 W city r Hkey Hreq Hcode).
  unfold bind, lift, ret. now rewrite Hjson, Hlist, Hiter.
Qed.

Lemma get_forecast_no_samples_witness :
  get_forecast (test_world (Some "k") None (answer 200 (PDict [("list", PList [])]))) "Lima"
  = (Returned (success ("Pronóstico del tiempo para Lima:" ++ nl ++ nl)),
     ["http://api.openweathermap.org/data/2.5/forecast?q=Lima&appid=k&units=metric"]).
Proof.
  exact (get_forecast_no_samples
           (test_world (Some "k") None (answer 200 (PDict [("list", PList [])]))) "Lima"
           (mk_Response 200 (inr (PDict [("list", PList [])])))
           (PDict [("list", PList [])]) (PList [])
           eq_refl eq_refl eq_refl eq_refl eq_refl eq_refl).
Defined.





Lemma group_by_day_app (W : World) (l1 l2 : list pyval) :
  forall daily,
    group_by_day W daily (l1 ++ l2)
    = rbind (group_by_day W daily l1) (fun daily' => group_by_day W daily' l2).
Proof.
  induction l1 as [| f l1 IH]; intros daily; cbn [app group_by_day rbind]; [reflexivity |].
  destruct (forecast_step W daily f) as [e | daily1]; cbn [rbind]; [reflexivity | apply IH].
Qed.

(** X11: the grouping loop goes through every sample before the report is cut
    to five days, so one sample whose day cannot be told (no [dt], or a [dt]
    the clock refuses), anywhere in the list, after samples that were grouped,
    makes [get_forecast] return the Failure of that exception: there is no
    partial report. *)
Theorem get_forecast_unreadable_sample :
  forall (W : World) (city : string) (r : Response) (data : pyval)
         (before after : list pyval) (bad : pyval) (ss : list Sample) (e : exn),
    key_truthy (OPENWEATHER_API_KEY W) = true ->
    requests_get W [] (forecast_url W city) = inr r ->
    status_code r = 200 ->
    json r = inr data ->
    getitem data "list" = inr (PList (before ++ bad :: after)) ->
    Forall2 (fun f s => read_sample W f = inr s) before ss ->
    Forall (fun s => is_number (s_min s) = true /\ is_number (s_max s) = true
                     /\ hashable (s_desc s) = true) ss ->
    sample_date W bad = inl e ->
    get_forecast W city
    = (Returned (failure ("Error getting forecast data: " ++ exn_str e)),
       [forecast_url W city]).
Proof.
  intros W city r data before after bad ss e Hkey Hreq Hcode Hjson Hlist Hread Hok Hbad.
  apply get_forecast_raised.
  rewrite (get_forecast_on_200 W city r Hkey Hreq Hcode).
  unfold bind, lift, ret. rewrite Hjson, Hlist. cbn [py_iter ok].
  rewrite group_by_day_app.
  destruct (group_by_day_total W before [] [] ss daily_inv_nil Hread Hok)
    as (daily & Hrun & _).
  rewrite Hrun. cbn [rbind group_by_day].
  unfold forecast_step. now rewrite Hbad.
Qed.

Lemma get_forecast_unreadable_sample_witness :
  get_forecast
    (test_world (Some "k") None
       (answer 200
          (PDict [("list", PList (week_samples ++ [PDict [("main", PDict [])]]))])))
    "Lima"
  = (Returned (failure "Error getting forecast data: 'dt'"),
     ["http://api.openweathermap.org/data/2.5/forecast?q=Lima&appid=k&units=metric"]).
Proof.
  apply (get_forecast_unreadable_sample
           (test_world (Some "k") None
              (answer 200
                 (PDict [("list", PList (week_samples ++ [PDict [("main", PDict [])]]))])))
           "Lima"
           (mk_Response 200
              (inr (PDict [("list", PList (week_samples ++ [PDict [("main", PDict [])]]))])))
           (PDict [("list", PList (week_samples ++ [PDict [("main", PDict [])]]))])
           week_samples [] (PDict [("main", PDict [])]) week_read
           (mk_exn "KeyError" "'dt'")
           eq_refl eq_refl eq_refl eq_refl eq_refl).
  - repeat constructor.
  - repeat constructor.
  - reflexivity.
Defined.

(** ** The key check at start-up *)

(** X12: the line the module logs about the weather key when it is loaded
    says "No configurada" exactly when [get_forecast] will refuse to run for
    want of the key (an empty key counts as missing in both places);
    [get_weather] runs its request whatever that line says. *)
Theorem key_status_agrees_with_get_forecast :
  forall (W : World) (city : string),
    (key_status (OPENWEATHER_API_KEY W) = "No configurada ❌"
     <-> get_forecast W city = (Returned (failure missing_key_message), []))
    /\ (key_status (OPENWEATHER_API_KEY W) = "Configurada ✅"
        <-> fst (get_forecast W city) <> Returned (failure missing_key_message))
    /\ snd (get_weather W city) = [weather_url W city].
Proof.
  intros W city. unfold key_status.
  destruct (key_truthy (OPENWEATHER_API_KEY W)) eqn:Hkey; repeat split.
  - discriminate.
  - intros H. apply (f_equal fst) in H. cbn [fst] in H.
    now apply (get_forecast_with_key_message W city Hkey) in H.
  - intros _. now apply get_forecast_with_key_message.
  - apply get_weather_log.
  - intros _. now apply get_forecast_no_key.
  - discriminate.
  - intros H. elim H. now rewrite (get_forecast_no_key W city Hkey).
  - apply get_weather_log.
Qed.

Lemma key_status_agrees_with_get_forecast_witness :
  key_status (OPENWEATHER_API_KEY keyless_world) = "No configurada ❌"
  /\ get_forecast keyless_world "London" = (Returned (failure missing_key_message), []).
Proof.
  split; [reflexivity |].
  apply (proj1 (proj1 (key_status_agrees_with_get_forecast keyless_world "London"))).
  reflexivity.
Defined.

(** ** The block of a day *)

Lemma str_join_concat (ts : list string) :
  forall i, str_join i (map PStr ts) = inr (String.concat ", " ts).
Proof.
  induction ts as [| t ts IH]; intros i; cbn [map str_join String.concat];
    [reflexivity |].
  destruct ts as [| u ts]; [reflexivity |].
  cbn [map] in *. rewrite (IH (i + 1)). reflexivity.
Qed.

(** X18: for an entry whose bounds are doubles and whose conditions the loop
    over the set sees as the texts [ts], the block of the day reads: the date,
    the minimum and the maximum with one decimal in Celsius, the same two
    converted by [t * 9/5 + 32] in Fahrenheit, and the texts joined by a comma
    and a space, in the order the set gives them. *)
Theorem render_day_block_text :
  forall (W : World) (date : string) (lo hi : spec_float) (descs : list pyval)
         (ts : list string),
    set_iter W descs = map PStr ts ->
    render_day W (date, {| temp_min := PFloat lo; temp_max := PFloat hi;
                           descriptions := descs |})
    = inr ("📅 " ++ date ++ ":" ++ nl
             ++ "   🌡️ Temperatura: " ++ fmt_float1 lo ++ "°C a " ++ fmt_float1 hi ++ "°C "
             ++ "(" ++ fmt_float1 (fahrenheit lo) ++ "°F a "
             ++ fmt_float1 (fahrenheit hi) ++ "°F)" ++ nl
             ++ "   ☁️ Condiciones: " ++ String.concat ", " ts ++ nl ++ nl).
Proof.
  intros W date lo hi descs ts Hiter.
  unfold render_day. cbn [temp_min temp_max descriptions].
  rewrite !to_fahrenheit_float. cbn [rbind].
  rewrite Hiter, str_join_concat. reflexivity.
Qed.

Lemma render_day_block_text_witness :
  render_day week_world ("2025-01-01", first_day)
  = inr ("📅 2025-01-01:" ++ nl
           ++ "   🌡️ Temperatura: 8.0°C a 17.0°C (46.4°F a 62.6°F)" ++ nl
           ++ "   ☁️ Condiciones: clear sky, few clouds" ++ nl ++ nl).
Proof.
  exact (render_day_block_text week_world "2025-01-01" (float_lit 8) (float_lit 17)
           [PStr "clear sky"; PStr "few clouds"] ["clear sky"; "few clouds"] eq_refl).
Defined.

(** * Properties of the conversation driver *)

Lemma await_final_none (events : list Event) (ending : option exn)
      (current : option string) :
  Forall (fun ev => is_final_response ev = false) events ->
  await_final events ending current
  = match ending with
    | Some e => inl e
    | None => inr current
    end.
Proof.
  induction 1 as [| ev events Hev _ IH]; cbn [await_final]; [reflexivity |].
  now rewrite Hev.
Qed.

Lemma await_final_first (before after : list Event) (ev : Event)
      (ending : option exn) (current : option string) :
  Forall (fun ev => is_final_response ev = false) before ->
  is_final_response ev = true ->
  await_final (before ++ ev :: after) ending current = inr (final_text ev current).
Proof.
  intros Hbefore Hev.
  induction Hbefore as [| ev0 before H0 _ IH]; cbn [app await_final].
  - now rewrite Hev.
  - now rewrite H0.
Qed.

Lemma call_agent_async_run (runner : Runner) (query : string) (st : Console) :
  call_agent_async runner query st
  = match await_final (yielded (runner (asked st) query))
                      (raises (runner (asked st) query)) (Some default_response) with
    | inl e =>
        (inl e, mk_Console (printed st ++ [query_line query]) (asked st ++ [query]))
    | inr t =>
        (inr tt,
         mk_Console (printed st ++ [query_line query; response_line t])
                    (asked st ++ [query]))
    end.
Proof.
  unfold call_agent_async, io_bind, print, run_to_final. cbn [printed asked].
  destruct (await_final _ _ _) as [e | t]; [reflexivity |].
  cbn [printed asked]. now rewrite <- app_assoc.
Qed.

(** X13: when the stream of the runner ends without a final response (the
    empty stream included), [call_agent_async] prints the query and then the
    default text "Agent did not produce a final response.", and raises
    nothing. *)
Theorem call_agent_async_without_final :
  forall (runner : Runner) (query : string) (st : Console),
    Forall (fun ev => is_final_response ev = false) (yielded (runner (asked st) query)) ->
    raises (runner (asked st) query) = None ->
    call_agent_async runner query st
    = (inr tt,
       mk_Console
         (printed st
            ++ [nl ++ ">>> User Query: " ++ query;
                "<<< Agent Response: Agent did not produce a final response."])
         (asked st ++ [query])).
Proof.
  intros runner query st Hnone Hend.
  rewrite call_agent_async_run, (await_final_none _ _ _ Hnone), Hend. reflexivity.
Qed.

Lemma call_agent_async_without_final_witness :
  call_agent_async mute_runner "Hola" (mk_Console [] [])
  = (inr tt,
     mk_Console
       [nl ++ ">>> User Query: Hola";
        "<<< Agent Response: Agent did not produce a final response."]
       ["Hola"]).
Proof.
  apply (call_agent_async_without_final mute_runner "Hola" (mk_Console [] [])).
  - repeat constructor.
  - reflexivity.
Defined.

(** X14: the first final response of the stream decides the answer and ends
    the reading: what the stream holds after it, further final responses and
    the exception it would break with included, has no effect.  The answer is
    the text of the first part of the event when it has parts; without parts,
    "Agent escalated: " and the error message (or "No specific message.") when
    the event escalates, and the default text otherwise. *)
Theorem call_agent_async_first_final :
  forall (runner : Runner) (query : string) (st : Console)
         (before after : list Event) (ev : Event),
    yielded (runner (asked st) query) = (before ++ ev :: after)%list ->
    Forall (fun ev => is_final_response ev = false) before ->
    is_final_response ev = true ->
    call_agent_async runner query st
    = (inr tt,
       mk_Console
         (printed st
            ++ [nl ++ ">>> User Query: " ++ query;
                "<<< Agent Response: "
                  ++ str_or_None (final_text ev (Some default_response))])
         (asked st ++ [query]))
    /\ (forall p ps, content_parts ev = p :: ps ->
        final_text ev (Some default_response) = text p)
    /\ (content_parts ev = [] -> escalates ev = true ->
        final_text ev (Some default_response)
        = Some ("Agent escalated: " ++ error_or_default ev))
    /\ (content_parts ev = [] -> escalates ev = false ->
        final_text ev (Some default_response)
        = Some "Agent did not produce a final response.").
Proof.
  intros runner query st before after ev Hstream Hbefore Hev.
  repeat split.
  - rewrite call_agent_async_run, Hstream, (await_final_first _ _ _ _ _ Hbefore Hev).
    reflexivity.
  - intros p ps Hparts. unfold final_text. now rewrite Hparts.
  - intros Hparts Hesc. unfold final_text. now rewrite Hparts, Hesc.
  - intros Hparts Hesc. unfold final_text. now rewrite Hparts, Hesc.
Qed.

Lemma call_agent_async_first_final_witness :
  call_agent_async echo_runner "Hola" (mk_Console [] [])
  = (inr tt,
     mk_Console [nl ++ ">>> User Query: Hola"; "<<< Agent Response: re: Hola"] ["Hola"]).
Proof.
  apply (call_agent_async_first_final echo_runner "Hola" (mk_Console [] [])
           [thinking] [says "never read"] (says "re: Hola")).
  - reflexivity.
  - repeat constructor.
  - reflexivity.
Defined.

(** X15: when the stream breaks with an exception before any final response,
    [call_agent_async] lets the exception out: the query has been printed and
    sent, no response line is printed. *)
Theorem call_agent_async_stream_breaks :
  forall (runner : Runner) (query : string) (st : Console) (e : exn),
    Forall (fun ev => is_final_response ev = false) (yielded (runner (asked st) query)) ->
    raises (runner (asked st) query) = Some e ->
    call_agent_async runner query st
    = (inl e,
       mk_Console (printed st ++ [nl ++ ">>> User Query: " ++ query])
                  (asked st ++ [query])).
Proof.
  intros runner query st e Hnone Hend.
  rewrite call_agent_async_run, (await_final_none _ _ _ Hnone), Hend. reflexivity.
Qed.

Lemma call_agent_async_stream_breaks_witness :
  call_agent_async flaky_runner "Hola" (mk_Console ["antes"] ["primera"])
  = (inl connection_error,
     mk_Console ["antes"; nl ++ ">>> User Query: Hola"] ["primera"; "Hola"]).
Proof.
  apply (call_agent_async_stream_breaks flaky_runner "Hola"
           (mk_Console ["antes"] ["primera"]) connection_error).
  - repeat constructor.
  - reflexivity.
Defined.

Ltac run_call :=
  rewrite call_agent_async_run; cbn [asked printed app];
  match goal with
  | H : await_final _ _ _ = _ |- _ => rewrite H
  end.

(** X16: when the four streams come to an answer, the program prints eight
    lines, each query followed by its answer, and the runner has been asked the
    four queries in their order, each after the answer to the one before (the
    stream of a query is the one the runner gives with the earlier queries as
    the history of the session). *)
Theorem main_all_answered :
  forall (runner : Runner) (t1 t2 t3 t4 : option string),
    exchange runner 0 = inr t1 ->
    exchange runner 1 = inr t2 ->
    exchange runner 2 = inr t3 ->
    exchange runner 3 = inr t4 ->
    main runner
    = mk_Console
        [query_line query_1; response_line t1;
         query_line query_2; response_line t2;
         query_line query_3; response_line t3;
         query_line query_4; response_line t4]
        [query_1; query_2; query_3; query_4].
Proof.
  unfold exchange. cbn [firstn nth conversation].
  intros runner t1 t2 t3 t4 H1 H2 H3 H4.
  unfold main, run_conversation, io_bind.
  rewrite call_agent_async_run. cbn [asked printed app]. rewrite H1.
  rewrite call_agent_async_run. cbn [asked printed app]. rewrite H2.
  rewrite call_agent_async_run. cbn [asked printed app]. rewrite H3.
  rewrite call_agent_async_run. cbn [asked printed app]. rewrite H4.
  reflexivity.
Qed.

Lemma main_all_answered_witness :
  main echo_runner
  = mk_Console
      [query_line query_1; "<<< Agent Response: re: ¿Cómo está el clima en Londres?";
       query_line query_2; "<<< Agent Response: re: ¿Y en París?";
       query_line query_3; "<<< Agent Response: re: Dime el clima en Nueva York";
       query_line query_4; "<<< Agent Response: re: Dime el forecast en Cochabamba"]
      [query_1; query_2; query_3; query_4].
Proof.
  exact (main_all_answered echo_runner
           (Some ("re: " ++ query_1)) (Some ("re: " ++ query_2))
           (Some ("re: " ++ query_3)) (Some ("re: " ++ query_4))
           eq_refl eq_refl eq_refl eq_refl).
Defined.

(** X17: the conversation stops at the first query whose stream breaks: the
    queries after it are never sent to the runner, the query itself is the
    last one printed, without a response line, and the program ends by printing
    "An error occurred: " with the text of the exception instead of letting it
    out. *)
Theorem main_stops_at_first_exception :
  forall (runner : Runner) (n : nat) (e : exn),
    (n < 4)%nat ->
    (forall i, (i < n)%nat -> exists t, exchange runner i = inr t) ->
    exchange runner n = inl e ->
    asked (main runner) = firstn (S n) conversation
    /\ List.length (printed (main runner)) = (2 * n + 2)%nat
    /\ skipn (2 * n) (printed (main runner))
       = [query_line (nth n conversation EmptyString);
          "An error occurred: " ++ exn_str e].
Proof.
  intros runner n e Hn Hprev Hbreak.
  assert (H0 : (0 < n)%nat -> exists t, exchange runner 0 = inr t)
    by (intros; apply Hprev; lia).
  assert (H1 : (1 < n)%nat -> exists t, exchange runner 1 = inr t)
    by (intros; apply Hprev; lia).
  assert (H2 : (2 < n)%nat -> exists t, exchange runner 2 = inr t)
    by (intros; apply Hprev; lia).
  clear Hprev. unfold exchange in *.
  unfold main, run_conversation, io_bind.
  destruct n as [| [| [| [| n]]]]; [| | | | lia];
    cbn [firstn nth conversation] in *.
  - run_call. repeat split.
  - destruct H0 as (t0 & H0); [lia |]. clear H1 H2.
    rewrite call_agent_async_run; cbn [asked printed app]; rewrite H0.
    rewrite call_agent_async_run; cbn [asked printed app]; rewrite Hbreak.
    repeat split.
  - destruct H0 as (t0 & H0); [lia |]. destruct H1 as (t1 & H1); [lia |]. clear H2.
    rewrite call_agent_async_run; cbn [asked printed app]; rewrite H0.
    rewrite call_agent_async_run; cbn [asked printed app]; rewrite H1.
    rewrite call_agent_async_run; cbn [asked printed app]; rewrite Hbreak.
    repeat split.
  - destruct H0 as (t0 & H0); [lia |]. destruct H1 as (t1 & H1); [lia |].
    destruct H2 as (t2 & H2); [lia |].
    rewrite call_agent_async_run; cbn [asked printed app]; rewrite H0.
    rewrite call_agent_async_run; cbn [asked printed app]; rewrite H1.
    rewrite call_agent_async_run; cbn [asked printed app]; rewrite H2.
    rewrite call_agent_async_run; cbn [asked printed app]; rewrite Hbreak.
    repeat split.
Qed.

Lemma main_stops_at_first_exception_witness :
  asked (main flaky_runner) = [query_1; query_2]
  /\ skipn 2 (printed (main flaky_runner))
     = [query_line query_2; "An error occurred: connection refused"].
Proof.
  assert (Hprev : forall i, (i < 1)%nat ->
                    exists t, exchange flaky_runner i = inr t).
  { intros i Hi. exists (Some "Soleado").
    destruct i as [| i]; [reflexivity |].
    exfalso. apply (Nat.nle_succ_0 i). now apply le_S_n. }
  destruct (main_stops_at_first_exception flaky_runner 1 connection_error
              (le_S _ _ (le_S _ _ (le_n 2))) Hprev eq_refl)
    as (Hasked & _ & Hlast).
  split; [exact Hasked | exact Hlast].
Defined.
